(** * Meal planner: aggregation and report grid of [app.py]

    A shallow embedding of [calculate_macros], [reshape_arabic] and the part
    of [create_meal_plan_pdf] that builds the document (the list of
    flowables handed to [doc.build]), followed by the properties the
    specification states about them.

    Python values are dynamically typed and every operation may raise, so
    the embedding keeps a small universe of values and an exception monad;
    dictionaries with string keys are [gmap string value]. Numbers are
    Python's unbounded [int] (what the number inputs of the form return),
    text is a string of UTF-8 bytes. The two text-shaping libraries are
    parameters; the form, the fonts and the rendering of the flowables to
    bytes are not modelled. *)

From Stdlib Require Import ZArith Lia.
From stdpp Require Import base strings gmap list pretty.

(** ** The Python fragment the program uses *)

Module Py.

(** The values the application stores in an item dictionary ([int] from
    the number inputs, [str] from the text inputs) and [None], which
    [dict.get] without a default produces. *)
Inductive value : Type :=
| VNone
| VInt (n : Z)
| VStr (s : string).

Inductive exn : Type :=
| ValueError
| TypeError
| IndexError
| KeyError
| LibraryError.   (* anything else a third-party call may raise *)

Inductive result (A : Type) : Type :=
| Ok (a : A)
| Raise (e : exn).
Arguments Ok {A} a.
Arguments Raise {A} e.

#[global] Instance value_eq_dec : EqDecision value.
Proof. solve_decision. Defined.

#[global] Instance result_ret : MRet result := λ A a, Ok a.
#[global] Instance result_bind : MBind result :=
  λ A B k r, match r with Ok a => k a | Raise e => Raise e end.

(** [try: body except: handler] with a bare [except]. *)
Definition try_except {A} (body handler : result A) : result A :=
  match body with
  | Ok a => Ok a
  | Raise _ => handler
  end.

(** Truth value testing: [None], [0] and [''] are false. *)
Definition truthy (v : value) : bool :=
  match v with
  | VNone => false
  | VInt n => negb (n =? 0)%Z
  | VStr s => negb (String.eqb s "")
  end.

(** [str(v)], which is also what an f-string field [{v}] inserts. *)
Definition str (v : value) : string :=
  match v with
  | VNone => "None"
  | VInt n => pretty n
  | VStr s => s
  end.

(** [acc + v] for an [int] accumulator. *)
Definition add (acc : Z) (v : value) : result Z :=
  match v with
  | VInt n => Ok (acc + n)%Z
  | VNone | VStr _ => Raise TypeError
  end.

(** [sum(iterable)]: starts from [0] and adds from the left. *)
Fixpoint sum_from (acc : Z) (vs : list value) : result Z :=
  match vs with
  | [] => Ok acc
  | v :: vs => acc' ← add acc v; sum_from acc' vs
  end.

Definition sum (vs : list value) : result Z := sum_from 0 vs.

(** [max(iterable)]: raises [ValueError] on an empty iterable. *)
Definition max (ns : list nat) : result nat :=
  match ns with
  | [] => Raise ValueError
  | n :: ns => Ok (foldl Nat.max n ns)
  end.

(** [l[i]] for a non-negative index. *)
Definition index {A} (l : list A) (i : nat) : result A :=
  match l !! i with
  | Some x => Ok x
  | None => Raise IndexError
  end.

(** [range(n)]. *)
Definition range (n : nat) : list nat := seq 0 n.

(** A [for] loop that appends one computed element per iteration. *)
Fixpoint for_each {A B} (f : A → result B) (l : list A) : result (list B) :=
  match l with
  | [] => Ok []
  | x :: l => y ← f x; ys ← for_each f l; Ok (y :: ys)
  end.

End Py.
Import Py.

(** ** Data model *)

(** A food item is a dictionary; the application uses the keys
    ['food_text'], ['amount'], ['protein'], ['carbs'] and ['fat']. *)
Abbreviation item := (gmap string value).

(** A meal is a dictionary with the keys ['name'] and ['items']; [items] is
    [None] when the key is absent. *)
Record meal : Type := Meal {
  name : string;
  items : option (list item)
}.

(** [it.get(key, dflt)] *)
Definition get (key : string) (dflt : value) (it : item) : value :=
  default dflt (it !! key).

(** [meal.get('items', [])] *)
Definition meal_items (m : meal) : list item := default [] (items m).

(** [meal['items']] *)
Definition subscript_items (m : meal) : result (list item) :=
  match items m with
  | Some l => Ok l
  | None => Raise KeyError
  end.

(** ** The aggregator *)

(** The generator
    [item.get(key, 0) for meal in meals_data for item in meal.get('items', [])]. *)
Definition macro_values (key : string) (meals_data : list meal) : list value :=
  meals_data ≫= λ m, get key (VInt 0) <$> meal_items m.

Definition calculate_macros (meals_data : list meal) : result (Z * Z * Z * Z) :=
  total_protein ← Py.sum (macro_values "protein" meals_data);
  total_carbs ← Py.sum (macro_values "carbs" meals_data);
  total_fat ← Py.sum (macro_values "fat" meals_data);
  let total_calories := (total_protein * 4 + total_carbs * 4 + total_fat * 9)%Z in
  Ok (total_protein, total_carbs, total_fat, total_calories).

(** The example of the specification: one item in the first meal. *)
Definition rice : item :=
  {[ "food_text" := VStr "rice"; "amount" := VInt 100;
     "protein" := VInt 4; "carbs" := VInt 45; "fat" := VInt 1 ]}.

Definition rice_plan : list meal :=
  [ Meal "m1" (Some [rice]); Meal "m2" (Some []); Meal "m3" (Some []);
    Meal "m4" (Some []); Meal "m5" (Some []) ].

(** An item that carries a description only, and a collection that holds
    it next to a meal without the ['items'] key. *)
Definition tea : item := {[ "food_text" := VStr "tea" ]}.

Definition sparse_plan : list meal :=
  [ Meal "m1" (Some [rice; tea]); Meal "m2" None ].

(** Five meals, none with an item: the state of a fresh session. *)
Definition fresh_plan : list meal :=
  [ Meal "m1" (Some []); Meal "m2" (Some []); Meal "m3" (Some []);
    Meal "m4" (Some []); Meal "m5" (Some []) ].

(** ** Spec-side vocabulary for the aggregator *)

(** The number an item carries under [key]; an absent key counts as zero. *)
Definition field (key : string) (it : item) : Z :=
  match it !! key with
  | Some (VInt n) => n
  | _ => 0%Z
  end.

Definition sumZ (l : list Z) : Z := foldr Z.add 0%Z l.

(** The number a value stands for in a sum of numbers. *)
Definition as_int (v : value) : Z :=
  match v with VInt n => n | _ => 0%Z end.

(** The sum of a field over the items of one meal, and over all meals. *)
Definition meal_total (key : string) (m : meal) : Z :=
  sumZ (field key <$> meal_items m).

Definition plan_total (key : string) (meals_data : list meal) : Z :=
  sumZ (meal_total key <$> meals_data).

(** Well-formed input: a macro field that is present holds a number. *)
Definition is_int (v : value) : bool :=
  match v with VInt _ => true | _ => false end.

Definition numeric_item (it : item) : bool :=
  is_int (get "protein" (VInt 0) it)
  && is_int (get "carbs" (VInt 0) it)
  && is_int (get "fat" (VInt 0) it).

Definition numeric_plan (meals_data : list meal) : bool :=
  forallb (λ m, forallb numeric_item (meal_items m)) meals_data.

(** Input as the number inputs of the form produce it ([min_value=0]): a
    macro field that is present holds a number that is not negative. *)
Definition nonneg_value (v : value) : bool :=
  match v with VInt n => (0 <=? n)%Z | _ => false end.

Definition nonneg_item (it : item) : bool :=
  nonneg_value (get "protein" (VInt 0) it)
  && nonneg_value (get "carbs" (VInt 0) it)
  && nonneg_value (get "fat" (VInt 0) it).

Definition nonneg_plan (meals_data : list meal) : bool :=
  forallb (λ m, forallb nonneg_item (meal_items m)) meals_data.

(** ASCII text: every byte is below 128. *)
Fixpoint is_ascii (s : string) : bool :=
  match s with
  | EmptyString => true
  | String a s => (Ascii.N_of_ascii a <? 128)%N && is_ascii s
  end.

(** ** The document *)

Inductive style : Type := ArabicStyle | HeaderStyle | FooterStyle.

(** The flowables the function appends to [elements]; the table carries its
    cell data and column widths (its [TableStyle] is styling only, and the
    width [555 / 5], the float [111.0] in Python, is kept as an integer). *)
Inductive flowable : Type :=
| Paragraph (text : string) (st : style)
| Spacer (width height : Z)
| Table (data : list (list string)) (colWidths : list Z).

(** The f-string of the header, over the caller's [total_calories]. *)
Definition header_fstring (total_calories : value) : string :=
  "النظام الرابع : إجمالي السعرات الحرارية: " +:+ str total_calories +:+ " سعر حراري".

(** The f-string of the macro summary. *)
Definition macros_fstring (total_protein total_carbs total_fat : Z) : string :=
  "إجمالي البروتين: " +:+ pretty total_protein
  +:+ " غ     إجمالي الكربوهيدرات: " +:+ pretty total_carbs
  +:+ " غ     إجمالي الدهون: " +:+ pretty total_fat +:+ " غ".

Definition website : string := "HTTPS://CAP-SHADOW.NETLIFY.APP/".

(** The unit word of a cell label, with the spaces the f-string puts
    around it. *)
Definition gram : string := " جرام ".

(** The text of a cell before shaping: [food_text], rebound to the f-string
    with the amount when [item.get('amount')] is true. *)
Definition food_label (it : item) : value :=
  let food_text := get "food_text" (VStr "") it in
  if truthy (get "amount" VNone it)
  then VStr (str (get "amount" VNone it) +:+ gram +:+ str food_text)
  else food_text.

(** Stand-ins for the shaping libraries, used to run the program on
    concrete inputs: one that returns its input, one that reverses the
    bytes of text that is not ASCII, one that always raises. *)
Definition plain_shaper (s : string) : result string := Ok s.

Definition mirror_shaper (s : string) : result string :=
  if is_ascii s then Ok s else Ok (String.rev s).

Definition failing_shaper (s : string) : result string := Raise LibraryError.

Section Report.

(** [arabic_reshaper.reshape] and [bidi.algorithm.get_display]: third-party
    functions from text to text that may raise. *)
Variable reshape : string → result string.
Variable get_display : string → result string.

Definition reshape_arabic (text : value) : result string :=
  if negb (truthy text) then Ok ""
  else try_except
         (reshaped_text ← reshape (str text); get_display reshaped_text)
         (Ok (str text)).

(** One cell of the body: the [if]/[else] inside the two loops. *)
Definition table_cell (meals_data : list meal) (row_idx meal_idx : nat)
  : result string :=
  occupied ←
    (if bool_decide (meal_idx < length meals_data)
     then m ← index meals_data meal_idx;
          Ok (bool_decide (row_idx < length (meal_items m)))
     else Ok false);
  if (occupied : bool)
  then m ← index meals_data meal_idx;
       its ← subscript_items m;
       it ← index its row_idx;
       reshape_arabic (food_label it)
  else Ok "".

(** The inner loop, [for meal_idx in range(4, -1, -1)]. *)
Definition table_row (meals_data : list meal) (row_idx : nat)
  : result (list string) :=
  for_each (table_cell meals_data row_idx) [4; 3; 2; 1; 0].

(** The body rows: [max_items] and the outer loop. *)
Definition report_rows (meals_data : list meal) : result (list (list string)) :=
  max_items ← Py.max (length ∘ meal_items <$> meals_data);
  for_each (table_row meals_data) (range max_items).

Definition create_meal_plan_pdf
    (client_name : string) (total_calories : value) (meals_data : list meal)
  : result (list flowable) :=
  '(total_protein, total_carbs, total_fat, calculated_calories) ←
    calculate_macros meals_data;
  header_text ← reshape_arabic (VStr (header_fstring total_calories));
  meal_headers ←
    for_each reshape_arabic
      [ VStr "الوجبة الخامسة"; VStr "الوجبة الرابعة"; VStr "الوجبة الثالثة";
        VStr "الوجبة الثانية"; VStr "الوجبة الأولى" ];
  rows ← report_rows meals_data;
  let data := meal_headers :: rows in
  let table_width := 555%Z in
  let col_widths := replicate 5 (table_width / 5)%Z in
  macros_text ←
    reshape_arabic (VStr (macros_fstring total_protein total_carbs total_fat));
  website_text ← reshape_arabic (VStr website);
  Ok [ Paragraph header_text HeaderStyle; Spacer 1 15;
       Table data col_widths; Spacer 1 15;
       Paragraph macros_text FooterStyle; Spacer 1 10;
       Paragraph website_text FooterStyle ].

End Report.

(** ** The session of [main] *)

(** The dictionary [main] appends when an item count grows. *)
Definition default_item : item :=
  {[ "food_text" := VStr ""; "amount" := VInt 0;
     "protein" := VInt 0; "carbs" := VInt 0; "fat" := VInt 0 ]}.

(** The meal structure [main] stores when the session has none. *)
Definition initial_meals_data : list meal :=
  [ Meal "الوجبة الأولى" (Some []); Meal "الوجبة الثانية" (Some []);
    Meal "الوجبة الثالثة" (Some []); Meal "الوجبة الرابعة" (Some []);
    Meal "الوجبة الخامسة" (Some []) ].

(** [st.session_state.meals_data] after the initialisation: [None] stands
    for ['meals_data' not in st.session_state]. *)
Definition session_meals (session_state : option (list meal)) : list meal :=
  default initial_meals_data session_state.

(** The item list after the [if count != current_count] block: appended
    default items, or the slice [items[:count]]. *)
Definition resize (count : nat) (its : list item) : list item :=
  let current_count := length its in
  if bool_decide (count ≠ current_count)
  then if bool_decide (current_count < count)
       then its ++ replicate (count - current_count) default_item
       else if bool_decide (count < current_count)
            then take count its
            else its
  else its.

(** One line of the preview: nothing for an item without description. *)
Definition preview_line (it : item) : option string :=
  let food_text := get "food_text" (VStr "") it in
  let amount := get "amount" VNone it in
  if truthy food_text
  then if truthy amount
       then Some ("• " +:+ str amount +:+ gram +:+ str food_text)
       else Some ("• " +:+ str food_text)
  else None.

(** The [with col:] block of iteration [i] over [reversed(preview_cols)]:
    the column written to (an index into [preview_cols]) and the markdown
    it receives. *)
Definition preview_block (meals_data : list meal) (i : nat)
  : result (nat * list string) :=
  m ← index meals_data (4 - i);
  let title := "**" +:+ name m +:+ "**" in
  m' ← index meals_data (4 - i);
  its ← subscript_items m';
  Ok (4 - i, title :: omap preview_line its).

Definition preview (meals_data : list meal) : result (list (nat * list string)) :=
  for_each (preview_block meals_data) (range 5).

(** What one run of [main] leaves and shows: the stored meals, the four
    metrics, the preview and, when the button is pressed, the document. *)
Record page : Type := Page {
  page_meals : list meal;
  page_metrics : Z * Z * Z * Z;
  page_preview : list (nat * list string);
  page_pdf : option (list flowable)
}.

Section Session.

(** The widgets, each with the arguments that tell it apart and the
    [value=] it is given: the item count of column [i]; the description of
    item [j] of meal [i]; the number input of a field of that item. *)
Variable count_input : nat → nat → nat.
Variable text_input : nat → nat → value → string.
Variable number_input : string → nat → nat → value → Z.

(** The loop over [enumerate(meal_cols)], on the five columns. *)
Fixpoint count_loop (cols : list nat) (meals_data : list meal)
  : result (list meal) :=
  match cols with
  | [] => Ok meals_data
  | i :: cols =>
      m ← index meals_data i;
      its ← subscript_items m;
      let count := count_input i (length its) in
      count_loop cols (<[i := Meal (name m) (Some (resize count its))]> meals_data)
  end.

Definition update_counts (meals_data : list meal) : result (list meal) :=
  count_loop (range 5) meals_data.

(** The five assignments to [meal_items[j]]; each widget reads its
    [value=] from the dictionary as the earlier assignments left it. *)
Definition edit_item (i j : nat) (it : item) : item :=
  let it := <["food_text" :=
                VStr (text_input i j (get "food_text" (VStr "") it))]> it in
  let it := <["amount" :=
                VInt (number_input "amount" i j (get "amount" (VInt 0) it))]> it in
  let it := <["protein" :=
                VInt (number_input "protein" i j (get "protein" (VInt 0) it))]> it in
  let it := <["carbs" :=
                VInt (number_input "carbs" i j (get "carbs" (VInt 0) it))]> it in
  <["fat" := VInt (number_input "fat" i j (get "fat" (VInt 0) it))]> it.

(** The body of one tab. *)
Definition edit_meal (i : nat) (m : meal) : result meal :=
  meal_items ← subscript_items m;
  match meal_items with
  | [] => Ok m
  | _ :: _ => Ok (Meal (name m) (Some (imap (edit_item i) meal_items)))
  end.

(** The loop over [enumerate(tabs)], one tab per stored meal. *)
Fixpoint edit_loop (i : nat) (meals_data : list meal) : result (list meal) :=
  match meals_data with
  | [] => Ok []
  | m :: meals_data =>
      m' ← edit_meal i m;
      rest ← edit_loop (S i) meals_data;
      Ok (m' :: rest)
  end.

Definition edit_meals (meals_data : list meal) : result (list meal) :=
  edit_loop 0 meals_data.

Variable reshape : string → result string.
Variable get_display : string → result string.

(** One run of the script from the session store to the page (the font
    registration, the style sheet and the download link are left out). *)
Definition main (client_name : string) (total_calories : Z) (button : bool)
    (session_state : option (list meal)) : result page :=
  let meals_data := session_meals session_state in
  meals_data ← update_counts meals_data;
  meals_data ← edit_meals meals_data;
  metrics ← calculate_macros meals_data;
  shown ← preview meals_data;
  pdf ← (if button
         then els ← create_meal_plan_pdf reshape get_display
                      client_name (VInt total_calories) meals_data;
              Ok (Some els)
         else Ok None);
  Ok (Page meals_data metrics shown pdf).

End Session.

(** An item as the editing pass leaves it: the description is text and
    the four numbers are numbers, all five keys being present. *)
Definition holds_text (key : string) (it : item) : bool :=
  match it !! key with Some (VStr _) => true | _ => false end.

Definition holds_int (key : string) (it : item) : bool :=
  match it !! key with Some (VInt _) => true | _ => false end.

Definition complete_item (it : item) : bool :=
  holds_text "food_text" it && holds_int "amount" it
  && holds_int "protein" it && holds_int "carbs" it && holds_int "fat" it.

(** The store as a run of [main] leaves it: five meals, each with a list
    of at most ten complete items. *)
Definition stored (meals_data : list meal) : bool :=
  (length meals_data =? 5)
  && forallb (λ m, match items m with
                   | Some its => (length its <=? 10) && forallb complete_item its
                   | None => false
                   end) meals_data.

(** Widgets that return the [value=] they are given: a run in which the
    user changes nothing. *)
Definition keep_count (i current_count : nat) : nat := current_count.
Definition keep_text (i j : nat) (v : value) : string := str v.
Definition keep_number (field : string) (i j : nat) (v : value) : Z :=
  match v with VInt n => n | _ => 0%Z end.

(** Widgets of a run in which the user asks for two items in the first
    meal and types the rice of the example into each. *)
Definition two_in_first (i current_count : nat) : nat :=
  match i with 0 => 2 | _ => current_count end.
Definition type_rice (i j : nat) (v : value) : string := "rice".
Definition rice_numbers (field : string) (i j : nat) (v : value) : Z :=
  if String.eqb field "amount" then 100
  else if String.eqb field "protein" then 4
  else if String.eqb field "carbs" then 45
  else if String.eqb field "fat" then 1
  else 0.

(** ** The program on the specification's example *)

Example rice_plan_macros : calculate_macros rice_plan = Ok (4, 45, 1, 205)%Z.
Proof. vm_compute. reflexivity. Qed.

Example rice_plan_rows :
  report_rows plain_shaper plain_shaper rice_plan
  = Ok [ [""; ""; ""; ""; "100 جرام rice"] ].
Proof. vm_compute. reflexivity. Qed.

(** With libraries that raise, every text falls back to itself. *)
Example rice_plan_document :
  create_meal_plan_pdf failing_shaper failing_shaper "" (VInt 1700) rice_plan
  = Ok [ Paragraph "النظام الرابع : إجمالي السعرات الحرارية: 1700 سعر حراري" HeaderStyle;
         Spacer 1 15;
         Table [ [ "الوجبة الخامسة"; "الوجبة الرابعة"; "الوجبة الثالثة";
                   "الوجبة الثانية"; "الوجبة الأولى" ];
                 [ ""; ""; ""; ""; "100 جرام rice" ] ]
               [111; 111; 111; 111; 111]%Z;
         Spacer 1 15;
         Paragraph "إجمالي البروتين: 4 غ     إجمالي الكربوهيدرات: 45 غ     إجمالي الدهون: 1 غ" FooterStyle;
         Spacer 1 10;
         Paragraph "HTTPS://CAP-SHADOW.NETLIFY.APP/" FooterStyle ].
Proof. vm_compute. reflexivity. Qed.

(** A macro field that holds text instead of a number makes [sum] raise;
    the theorems on the aggregator assume numbers where a field is
    present. *)
Example text_field_raises :
  calculate_macros [ Meal "m1" (Some [ {[ "protein" := VStr "4" ]} ]) ]
  = Raise TypeError.
Proof. vm_compute. reflexivity. Qed.

(** ** Facts about the Python fragment *)

Lemma sumZ_cons (x : Z) (l : list Z) : sumZ (x :: l) = (x + sumZ l)%Z.
Proof. reflexivity. Qed.

Lemma sumZ_app (l1 l2 : list Z) : sumZ (l1 ++ l2) = (sumZ l1 + sumZ l2)%Z.
Proof.
  induction l1 as [|x l1 IH]; [reflexivity|].
  rewrite <- app_comm_cons, !sumZ_cons, IH. lia.
Qed.

Lemma sum_from_ints (vs : list value) (acc : Z) :
  forallb is_int vs = true →
  sum_from acc vs = Ok (acc + sumZ (as_int <$> vs))%Z.
Proof.
  revert acc. induction vs as [|v vs IH]; intros acc Hvs.
  - simpl. f_equal. unfold sumZ; simpl. lia.
  - simpl in Hvs. apply andb_prop in Hvs as [Hv Hvs].
    destruct v as [|n|s]; try discriminate.
    rewrite fmap_cons, sumZ_cons. simpl sum_from. simpl as_int.
    rewrite (IH _ Hvs). f_equal. lia.
Qed.

Lemma macro_values_cons (key : string) (m : meal) (md : list meal) :
  macro_values key (m :: md)
  = (get key (VInt 0) <$> meal_items m) ++ macro_values key md.
Proof. reflexivity. Qed.

Lemma as_int_get (key : string) (it : item) :
  as_int (get key (VInt 0) it) = field key it.
Proof.
  unfold get, field. destruct (it !! key) as [[|n|s]|]; reflexivity.
Qed.

Lemma macro_values_total (key : string) (md : list meal) :
  sumZ (as_int <$> macro_values key md) = plan_total key md.
Proof.
  induction md as [|m md IH]; [reflexivity|].
  rewrite macro_values_cons, fmap_app, sumZ_app, IH.
  unfold plan_total at 2. rewrite fmap_cons, sumZ_cons. f_equal.
  unfold meal_total. f_equal.
  rewrite <- list_fmap_compose. apply list_fmap_ext.
  intros i it _. apply as_int_get.
Qed.

(** Each of the three generators of a well-formed collection yields
    numbers only. *)
Lemma numeric_macro_values (md : list meal) :
  numeric_plan md = true →
  forallb is_int (macro_values "protein" md) = true
  ∧ forallb is_int (macro_values "carbs" md) = true
  ∧ forallb is_int (macro_values "fat" md) = true.
Proof.
  induction md as [|m md IH]; intros Hmd; [by repeat split|].
  simpl in Hmd. apply andb_prop in Hmd as [Hm Hmd].
  destruct (IH Hmd) as (Hp & Hc & Hf).
  rewrite !macro_values_cons, !forallb_app, Hp, Hc, Hf, !andb_true_r.
  clear -Hm. induction (meal_items m) as [|it its IHits]; [by repeat split|].
  simpl in Hm. apply andb_prop in Hm as [Hit Hits].
  destruct (IHits Hits) as (Hp & Hc & Hf).
  unfold numeric_item in Hit.
  apply andb_prop in Hit as [Hit Hfat]. apply andb_prop in Hit as [Hprot Hcarb].
  rewrite !fmap_cons. cbn [forallb].
  rewrite Hp, Hc, Hf, Hprot, Hcarb, Hfat. by repeat split.
Qed.

Lemma sum_numeric (key : string) (md : list meal) :
  forallb is_int (macro_values key md) = true →
  Py.sum (macro_values key md) = Ok (plan_total key md).
Proof.
  intros H. unfold Py.sum. rewrite (sum_from_ints _ _ H).
  by rewrite macro_values_total.
Qed.

Lemma calculate_macros_calories_aux (md : list meal) :
  numeric_plan md = true →
  ∃ r, calculate_macros md = Ok r
       ∧ r = (plan_total "protein" md, plan_total "carbs" md,
              plan_total "fat" md,
              plan_total "protein" md * 4 + plan_total "carbs" md * 4
              + plan_total "fat" md * 9)%Z.
Proof.
  intros Hnum. destruct (numeric_macro_values _ Hnum) as (Hp & Hc & Hf).
  eexists. split; [|reflexivity].
  unfold calculate_macros.
  by rewrite (sum_numeric _ _ Hp), (sum_numeric _ _ Hc), (sum_numeric _ _ Hf).
Qed.

(** ** Properties of the aggregator *)

(** C1. For every meal collection (whose macro fields, where present, are
    numbers) the aggregator returns the three totals, each the sum of the
    field over all items of all meals, and total calories equal to
    totalProtein*4 + totalCarbs*4 + totalFat*9. *)
Theorem calculate_macros_calories (meals_data : list meal) :
  numeric_plan meals_data = true →
  ∃ p c f cal,
    calculate_macros meals_data = Ok (p, c, f, cal)
    ∧ p = plan_total "protein" meals_data
    ∧ c = plan_total "carbs" meals_data
    ∧ f = plan_total "fat" meals_data
    ∧ cal = (p * 4 + c * 4 + f * 9)%Z.
Proof.
  intros Hnum.
  destruct (calculate_macros_calories_aux _ Hnum) as (r & Hr & ->).
  eexists _, _, _, _. split; [exact Hr|]. by repeat split.
Qed.

Lemma calculate_macros_calories_witness :
  numeric_plan rice_plan = true
  ∧ ∃ p c f cal,
      calculate_macros rice_plan = Ok (p, c, f, cal)
      ∧ p = plan_total "protein" rice_plan
      ∧ c = plan_total "carbs" rice_plan
      ∧ f = plan_total "fat" rice_plan
      ∧ cal = (p * 4 + c * 4 + f * 9)%Z.
Proof.
  split; [vm_compute; reflexivity|].
  apply (calculate_macros_calories rice_plan). vm_compute; reflexivity.
Defined.

Lemma macro_values_app (key : string) (md1 md2 : list meal) :
  macro_values key (md1 ++ md2) = macro_values key md1 ++ macro_values key md2.
Proof. unfold macro_values. apply bind_app. Qed.

(** Writing an explicit zero where a key is absent changes no lookup with
    default zero. *)
Lemma get_insert_zero (key key' : string) (it : item) :
  it !! key = None →
  get key' (VInt 0) (<[key := VInt 0]> it) = get key' (VInt 0) it.
Proof.
  intros Hnone. unfold get. destruct (decide (key = key')) as [<-|Hne].
  - by rewrite lookup_insert_eq, Hnone.
  - by rewrite lookup_insert_ne.
Qed.

Lemma macro_values_insert_zero (key key' nm : string)
    (md1 md2 : list meal) (its1 its2 : list item) (it : item) :
  it !! key = None →
  macro_values key'
    (md1 ++ Meal nm (Some (its1 ++ <[key := VInt 0]> it :: its2)) :: md2)
  = macro_values key' (md1 ++ Meal nm (Some (its1 ++ it :: its2)) :: md2).
Proof.
  intros Hnone. rewrite !macro_values_app, !macro_values_cons.
  unfold meal_items; simpl.
  by rewrite !fmap_app, !fmap_cons, get_insert_zero.
Qed.

(** C5. The aggregator returns for every collection of zero or more meals
    with zero or more items each (macro fields, where present, being
    numbers); an item on which protein, carbs or fat is absent counts as if
    the field were an explicit zero. *)
Theorem calculate_macros_never_raises :
  (∀ meals_data, numeric_plan meals_data = true →
     ∃ totals, calculate_macros meals_data = Ok totals)
  ∧ calculate_macros [] = Ok (0, 0, 0, 0)%Z
  ∧ (∀ key nm md1 md2 its1 its2 (it : item),
       it !! key = None →
       get key (VInt 0) it = VInt 0
       ∧ calculate_macros
           (md1 ++ Meal nm (Some (its1 ++ it :: its2)) :: md2)
         = calculate_macros
             (md1 ++ Meal nm (Some (its1 ++ <[key := VInt 0]> it :: its2)) :: md2)).
Proof.
  split; [|split].
  - intros md Hnum.
    destruct (calculate_macros_calories_aux md Hnum) as (r & Hr & _). by exists r.
  - reflexivity.
  - intros key nm md1 md2 its1 its2 it Hnone. split.
    + unfold get. by rewrite Hnone.
    + unfold calculate_macros.
      by rewrite !(macro_values_insert_zero key _ nm md1 md2 its1 its2 it Hnone).
Qed.

Lemma calculate_macros_never_raises_witness :
  numeric_plan sparse_plan = true
  ∧ (∃ totals, calculate_macros sparse_plan = Ok totals)
  ∧ tea !! "protein" = None
  ∧ calculate_macros [Meal "m1" (Some [rice; tea])]
    = calculate_macros [Meal "m1" (Some [rice; <["protein" := VInt 0]> tea])].
Proof.
  destruct calculate_macros_never_raises as (Htotal & _ & Hmissing).
  split; [vm_compute; reflexivity|].
  split; [apply Htotal; vm_compute; reflexivity|].
  split; [vm_compute; reflexivity|].
  apply (Hmissing "protein" "m1" [] [] [rice] [] tea). vm_compute; reflexivity.
Defined.

Lemma macro_values_no_items (key : string) (md : list meal) :
  Forall (λ m, meal_items m = []) md → macro_values key md = [].
Proof.
  induction 1 as [|m md Hm _ IH]; [reflexivity|].
  by rewrite macro_values_cons, Hm, IH.
Qed.

(** C6. When every meal's item list is empty, the aggregator returns the
    all-zero summary. *)
Theorem calculate_macros_no_items (meals_data : list meal) :
  Forall (λ m, meal_items m = []) meals_data →
  calculate_macros meals_data = Ok (0, 0, 0, 0)%Z.
Proof.
  intros Hempty. unfold calculate_macros.
  by rewrite !(macro_values_no_items _ _ Hempty).
Qed.

Lemma calculate_macros_no_items_witness :
  Forall (λ m, meal_items m = []) fresh_plan
  ∧ calculate_macros fresh_plan = Ok (0, 0, 0, 0)%Z.
Proof.
  assert (Hempty : Forall (λ m, meal_items m = []) fresh_plan)
    by (repeat constructor).
  split; [exact Hempty|]. exact (calculate_macros_no_items fresh_plan Hempty).
Defined.

(** ** Facts about loops and [max] *)

Lemma for_each_total {A B} (f : A → result B) (l : list A) :
  (∀ x, ∃ y, f x = Ok y) →
  ∃ ys, for_each f l = Ok ys ∧ Forall2 (λ x y, f x = Ok y) l ys.
Proof.
  intros Hf. induction l as [|x l (ys & Hys & Hall)].
  - exists []. by split.
  - destruct (Hf x) as [y Hy]. exists (y :: ys).
    split; [|by constructor]. simpl. by rewrite Hy, Hys.
Qed.

Lemma foldl_max_bounds (ns : list nat) (n : nat) :
  n ≤ foldl Nat.max n ns
  ∧ (∀ x, x ∈ ns → x ≤ foldl Nat.max n ns)
  ∧ (foldl Nat.max n ns = n ∨ foldl Nat.max n ns ∈ ns).
Proof.
  revert n. induction ns as [|k ns IH]; intros n; simpl.
  - split; [lia|]. split; [|by left]. intros x Hx. by apply elem_of_nil in Hx.
  - destruct (IH (Nat.max n k)) as (Hle & Hall & Hin).
    split; [lia|]. split.
    + intros x [->|Hx]%elem_of_cons; [lia|by apply Hall].
    + destruct Hin as [Heq|Hin]; [|right; by apply elem_of_cons; right].
      rewrite Heq. destruct (Nat.max_spec n k) as [[_ ->]|[_ ->]].
      * right. apply elem_of_cons. by left.
      * by left.
Qed.

(** On a non-empty list [max] returns an element that bounds all others. *)
Lemma max_spec (ns : list nat) :
  ns ≠ [] →
  ∃ n, Py.max ns = Ok n ∧ n ∈ ns ∧ ∀ x, x ∈ ns → x ≤ n.
Proof.
  destruct ns as [|k ns]; [done|]. intros _.
  destruct (foldl_max_bounds ns k) as (Hle & Hall & Hin).
  exists (foldl Nat.max k ns). split; [reflexivity|]. split.
  - apply elem_of_cons. destruct Hin as [->|Hin]; [by left|by right].
  - intros x [->|Hx]%elem_of_cons; [lia|by apply Hall].
Qed.

Lemma bind_Ok {A B} (k : A → result B) (a : A) : (Ok a ≫= k) = k a.
Proof. reflexivity. Qed.


Section ReportProperties.

Variable reshape : string → result string.
Variable get_display : string → result string.

Local Abbreviation shape := (reshape_arabic reshape get_display).
Local Abbreviation cell := (table_cell reshape get_display).
Local Abbreviation row_of := (table_row reshape get_display).
Local Abbreviation rows_of := (report_rows reshape get_display).
Local Abbreviation pdf := (create_meal_plan_pdf reshape get_display).

Lemma reshape_arabic_ok (text : value) : ∃ s, shape text = Ok s.
Proof.
  unfold reshape_arabic. destruct (truthy text); simpl; [|by eexists].
  destruct (reshape (str text)) as [t|e]; simpl; [|by eexists].
  destruct (get_display t); simpl; by eexists.
Qed.

(** The guard of a cell admits exactly the slots that hold an item, and
    the subscripts behind the guard never raise. *)
Lemma table_cell_lookup (md : list meal) (r k : nat) :
  cell md r k
  = match md !! k with
    | Some m =>
        match meal_items m !! r with
        | Some it => shape (food_label it)
        | None => Ok ""
        end
    | None => Ok ""
    end.
Proof.
  unfold table_cell, index. case_bool_decide as Hk.
  - destruct (lookup_lt_is_Some_2 md k Hk) as [m Hm]. rewrite Hm. simpl.
    case_bool_decide as Hr.
    + destruct (lookup_lt_is_Some_2 _ _ Hr) as [it Hit]. rewrite Hit.
      unfold subscript_items, meal_items in *.
      destruct (items m) as [its|]; simpl in *; [by rewrite Hit|done].
    + by rewrite (lookup_ge_None_2 (meal_items m) r) by lia.
  - by rewrite (lookup_ge_None_2 md k) by lia.
Qed.

Lemma table_cell_ok (md : list meal) (r k : nat) : ∃ c, cell md r k = Ok c.
Proof.
  rewrite table_cell_lookup. destruct (md !! k) as [m|]; [|by eexists].
  destruct (meal_items m !! r); [apply reshape_arabic_ok|by eexists].
Qed.

(** A row has five cells; displayed column [j] is the cell of meal
    [4 - j]. *)
Lemma table_row_cells (md : list meal) (r : nat) :
  ∃ row, row_of md r = Ok row
         ∧ length row = 5
         ∧ ∀ j, j < 5 → ∃ c, row !! j = Some c ∧ cell md r (4 - j) = Ok c.
Proof.
  destruct (table_cell_ok md r 4) as [c4 H4], (table_cell_ok md r 3) as [c3 H3],
    (table_cell_ok md r 2) as [c2 H2], (table_cell_ok md r 1) as [c1 H1],
    (table_cell_ok md r 0) as [c0 H0].
  exists [c4; c3; c2; c1; c0]. split; [|split; [reflexivity|]].
  - unfold table_row. simpl. by rewrite H4, H3, H2, H1, H0.
  - intros j Hj.
    destruct j as [|[|[|[|[|j]]]]]; simpl; [by eauto..|lia].
Qed.

(** With at least one meal the body has [max] rows, each computed by
    [table_row] at its index. *)
Lemma report_rows_rows (md : list meal) :
  md ≠ [] →
  ∃ n rows,
    Py.max (length ∘ meal_items <$> md) = Ok n
    ∧ rows_of md = Ok rows
    ∧ length rows = n
    ∧ ∀ r row, rows !! r = Some row → row_of md r = Ok row.
Proof.
  intros Hmd.
  destruct (max_spec (length ∘ meal_items <$> md)) as (n & Hn & _).
  { by destruct md. }
  destruct (for_each_total (row_of md) (range n)) as (rows & Hrows & Hall).
  { intros r. destruct (table_row_cells md r) as (row & Hrow & _). eauto. }
  exists n, rows. split; [done|]. split.
  { unfold report_rows. by rewrite Hn. }
  split.
  { apply Forall2_length in Hall. unfold range in Hall.
    by rewrite length_seq in Hall. }
  intros r row Hr.
  destruct (Forall2_lookup_r _ _ _ _ _ Hall Hr) as (r' & Hr' & Hrow).
  unfold range in Hr'. apply lookup_seq in Hr' as [-> _]. done.
Qed.

(** C2. With at least one meal, the body of the grid has as many rows as
    the largest item count among all meals; every row has five cells, and
    a cell whose meal has no item at the row's index (or which has no
    meal at all) is the empty string. *)
Theorem report_rows_count_and_padding (meals_data : list meal) :
  meals_data ≠ [] →
  ∃ rows,
    rows_of meals_data = Ok rows
    ∧ (∀ m, m ∈ meals_data → length (meal_items m) ≤ length rows)
    ∧ (∃ m, m ∈ meals_data ∧ length (meal_items m) = length rows)
    ∧ ∀ r row, rows !! r = Some row →
        length row = 5
        ∧ ∀ j, j < 5 →
            match meals_data !! (4 - j) with
            | Some m => length (meal_items m) ≤ r → row !! j = Some ""
            | None => row !! j = Some ""
            end.
Proof.
  intros Hmd.
  destruct (report_rows_rows meals_data Hmd) as (n & rows & Hn & Hrows & Hlen & Hrow).
  exists rows. split; [done|].
  destruct (max_spec (length ∘ meal_items <$> meals_data)) as (n' & Hn' & Hin & Hmax).
  { by destruct meals_data. }
  assert (n' = n) as -> by congruence.
  rewrite Hlen. split; [|split].
  - intros m Hm. apply Hmax. apply list_elem_of_fmap. by exists m.
  - apply list_elem_of_fmap in Hin as (m & -> & Hm). by exists m.
  - intros r row Hr. apply Hrow in Hr.
    destruct (table_row_cells meals_data r) as (row' & Hrow' & Hfive & Hcells).
    assert (row' = row) as -> by congruence.
    split; [done|]. intros j Hj.
    destruct (Hcells j Hj) as (c & Hc & Hcell).
    rewrite table_cell_lookup in Hcell.
    destruct (meals_data !! (4 - j)) as [m|]; [|congruence].
    intros Hshort. rewrite (lookup_ge_None_2 _ _ Hshort) in Hcell. congruence.
Qed.

(** C3. For a collection of five meals, displayed column [j] of every body
    row holds the cell of meal [4 - j]: the shaped label of that meal's
    item at the row's index, or the empty string when it has none; the
    rightmost column is the first stored meal. *)
Theorem report_rows_reverse_order (meals_data : list meal) :
  length meals_data = 5 →
  ∃ rows,
    rows_of meals_data = Ok rows
    ∧ ∀ r row, rows !! r = Some row →
        (∀ j, j < 5 →
           ∃ m c, meals_data !! (4 - j) = Some m
                  ∧ row !! j = Some c
                  ∧ match meal_items m !! r with
                    | Some it => shape (food_label it) = Ok c
                    | None => c = ""
                    end)
        ∧ ∃ m c, meals_data !! 0 = Some m
                 ∧ row !! 4 = Some c
                 ∧ cell meals_data r 0 = Ok c.
Proof.
  intros Hfive.
  destruct (report_rows_rows meals_data) as (n & rows & _ & Hrows & _ & Hrow).
  { by destruct meals_data. }
  exists rows. split; [done|]. intros r row Hr. apply Hrow in Hr.
  destruct (table_row_cells meals_data r) as (row' & Hrow' & _ & Hcells).
  assert (row' = row) as -> by congruence.
  split.
  - intros j Hj. destruct (Hcells j Hj) as (c & Hc & Hcell).
    destruct (lookup_lt_is_Some_2 meals_data (4 - j)) as [m Hm]; [lia|].
    exists m, c. split; [done|]. split; [done|].
    rewrite table_cell_lookup, Hm in Hcell.
    destruct (meal_items m !! r); congruence.
  - destruct (Hcells 4) as (c & Hc & Hcell); [lia|].
    destruct (lookup_lt_is_Some_2 meals_data 0) as [m Hm]; [lia|].
    by exists m, c.
Qed.

(** C4. In every body row of the grid, a cell whose slot holds an item is
    the shaping of: the amount, the unit word and the description when
    the amount is present and non-zero; the description alone when the
    amount is absent or zero. A cell whose slot holds no item is the
    empty string. *)
Theorem report_rows_cell_label (meals_data : list meal) :
  meals_data ≠ [] →
  ∃ rows,
    rows_of meals_data = Ok rows
    ∧ ∀ r row j c, rows !! r = Some row → row !! j = Some c →
        match meals_data !! (4 - j) ≫= λ m, meal_items m !! r with
        | Some it =>
            (∀ a, it !! "amount" = Some (VInt a) → a ≠ 0%Z →
               shape (VStr (pretty a +:+ gram
                            +:+ str (get "food_text" (VStr "") it))) = Ok c)
            ∧ (it !! "amount" = None ∨ it !! "amount" = Some (VInt 0) →
               shape (get "food_text" (VStr "") it) = Ok c)
        | None => c = ""
        end.
Proof.
  intros Hmd.
  destruct (report_rows_rows meals_data Hmd) as (n & rows & _ & Hrows & _ & Hrow).
  exists rows. split; [done|]. intros r row j c Hr Hc. apply Hrow in Hr.
  destruct (table_row_cells meals_data r) as (row' & Hrow' & Hfive & Hcells).
  assert (row' = row) as -> by congruence.
  assert (j < 5) as Hj by (rewrite <- Hfive; by eapply lookup_lt_Some).
  destruct (Hcells j Hj) as (c' & Hc' & Hcell).
  assert (c' = c) as -> by congruence.
  rewrite table_cell_lookup in Hcell.
  destruct (meals_data !! (4 - j)) as [m|]; simpl; [|congruence].
  destruct (meal_items m !! r) as [it|]; [|congruence].
  unfold food_label, get in Hcell. split.
  - intros a Ha Hnz. rewrite Ha in Hcell. simpl in Hcell.
    by rewrite (proj2 (Z.eqb_neq a 0) Hnz) in Hcell.
  - intros [Ha|Ha]; by rewrite Ha in Hcell.
Qed.

(** Up to the table body the function cannot raise once the aggregator
    has returned: the header and the five column titles are shaped. *)
Lemma create_meal_plan_pdf_unfold (nm : string) (tc : value)
    (md : list meal) (p c f cal : Z) :
  calculate_macros md = Ok (p, c, f, cal) →
  ∃ header headers,
    shape (VStr (header_fstring tc)) = Ok header
    ∧ length headers = 5
    ∧ pdf nm tc md
      = (rows ← rows_of md;
         macros ← shape (VStr (macros_fstring p c f));
         site ← shape (VStr website);
         Ok [ Paragraph header HeaderStyle; Spacer 1 15;
              Table (headers :: rows) (replicate 5 (555 / 5)%Z); Spacer 1 15;
              Paragraph macros FooterStyle; Spacer 1 10;
              Paragraph site FooterStyle ]).
Proof.
  intros Hcalc.
  destruct (reshape_arabic_ok (VStr (header_fstring tc))) as [header Hheader].
  destruct (for_each_total shape
              [ VStr "الوجبة الخامسة"; VStr "الوجبة الرابعة"; VStr "الوجبة الثالثة";
                VStr "الوجبة الثانية"; VStr "الوجبة الأولى" ])
    as (headers & Hheaders & Hall); [apply reshape_arabic_ok|].
  exists header, headers. split; [done|]. split.
  { by apply Forall2_length in Hall. }
  unfold create_meal_plan_pdf.
  rewrite Hcalc, bind_Ok. cbv beta iota.
  by rewrite Hheader, bind_Ok, Hheaders, bind_Ok.
Qed.

Lemma create_meal_plan_pdf_ok (nm : string) (tc : value)
    (md : list meal) (p c f cal : Z) :
  md ≠ [] →
  calculate_macros md = Ok (p, c, f, cal) →
  ∃ header headers rows macros site,
    shape (VStr (header_fstring tc)) = Ok header
    ∧ length headers = 5
    ∧ rows_of md = Ok rows
    ∧ shape (VStr (macros_fstring p c f)) = Ok macros
    ∧ shape (VStr website) = Ok site
    ∧ pdf nm tc md
      = Ok [ Paragraph header HeaderStyle; Spacer 1 15;
             Table (headers :: rows) (replicate 5 (555 / 5)%Z); Spacer 1 15;
             Paragraph macros FooterStyle; Spacer 1 10;
             Paragraph site FooterStyle ].
Proof.
  intros Hmd Hcalc.
  destruct (create_meal_plan_pdf_unfold nm tc md p c f cal Hcalc)
    as (header & headers & Hheader & Hfive & Hpdf).
  destruct (report_rows_rows md Hmd) as (n & rows & _ & Hrows & _).
  destruct (reshape_arabic_ok (VStr (macros_fstring p c f))) as [macros Hmacros].
  destruct (reshape_arabic_ok (VStr website)) as [site Hsite].
  exists header, headers, rows, macros, site.
  repeat (split; [done|]).
  by rewrite Hpdf, Hrows, bind_Ok, Hmacros, bind_Ok, Hsite, bind_Ok.
Qed.

(** Without a meal the function raises at [max]. *)
Lemma create_meal_plan_pdf_nil (nm : string) (tc : value) :
  pdf nm tc [] = Raise ValueError.
Proof.
  destruct (create_meal_plan_pdf_unfold nm tc [] 0 0 0 0 eq_refl)
    as (header & headers & _ & _ & Hpdf).
  by rewrite Hpdf.
Qed.

(** C7, amended. For every collection of at least one meal in which no
    meal has an item, the function returns a document whose table holds
    the title row only: zero body rows. *)
Theorem create_meal_plan_pdf_no_items
    (client_name : string) (total_calories : value) (meals_data : list meal) :
  meals_data ≠ [] →
  Forall (λ m, meal_items m = []) meals_data →
  ∃ header headers macros site,
    length headers = 5
    ∧ rows_of meals_data = Ok []
    ∧ pdf client_name total_calories meals_data
      = Ok [ Paragraph header HeaderStyle; Spacer 1 15;
             Table [headers] (replicate 5 (555 / 5)%Z); Spacer 1 15;
             Paragraph macros FooterStyle; Spacer 1 10;
             Paragraph site FooterStyle ].
Proof.
  intros Hmd Hempty.
  assert (Hcalc : calculate_macros meals_data = Ok (0, 0, 0, 0)%Z).
  { unfold calculate_macros. by rewrite !(macro_values_no_items _ _ Hempty). }
  destruct (create_meal_plan_pdf_ok client_name total_calories meals_data
              0 0 0 0 Hmd Hcalc)
    as (header & headers & rows & macros & site
        & _ & Hfive & Hrows & _ & _ & Hpdf).
  destruct (report_rows_rows meals_data Hmd) as (n & rows' & Hn & Hrows' & Hlen & _).
  assert (rows' = rows) as -> by congruence.
  destruct (max_spec (length ∘ meal_items <$> meals_data)) as (n' & Hn' & Hin & _).
  { by destruct meals_data. }
  assert (n' = n) as -> by congruence.
  apply list_elem_of_fmap in Hin as (m & Hm & Hin).
  rewrite Forall_forall in Hempty. simpl in Hm. rewrite (Hempty m Hin) in Hm.
  simpl in Hm. subst n. destruct rows; [|done].
  by exists header, headers, macros, site.
Qed.

(** C8. The header paragraph is the shaping of a text that contains the
    caller's declared calorie count, and it is the same for every meal
    collection (the computed calories do not enter it); the footer is the
    shaping of a text that contains the computed protein, carbs and fat
    totals, followed by the shaped attribution line. *)
Theorem header_declared_footer_computed
    (client_name : string) (total_calories : value) (meals_data : list meal)
    (p c f cal : Z) :
  meals_data ≠ [] →
  calculate_macros meals_data = Ok (p, c, f, cal) →
  ∃ header table macros site,
    pdf client_name total_calories meals_data
    = Ok [ Paragraph header HeaderStyle; Spacer 1 15; table; Spacer 1 15;
           Paragraph macros FooterStyle; Spacer 1 10;
           Paragraph site FooterStyle ]
    ∧ shape (VStr (header_fstring total_calories)) = Ok header
    ∧ (∃ pre post,
         header_fstring total_calories = pre +:+ str total_calories +:+ post)
    ∧ (∀ other els, pdf client_name total_calories other = Ok els →
         els !! 0 = Some (Paragraph header HeaderStyle))
    ∧ shape (VStr (macros_fstring p c f)) = Ok macros
    ∧ (∃ s0 s1 s2 s3,
         macros_fstring p c f
         = s0 +:+ pretty p +:+ s1 +:+ pretty c +:+ s2 +:+ pretty f +:+ s3)
    ∧ shape (VStr website) = Ok site.
Proof.
  intros Hmd Hcalc.
  destruct (create_meal_plan_pdf_ok client_name total_calories meals_data
              p c f cal Hmd Hcalc)
    as (header & headers & rows & macros & site
        & Hheader & _ & _ & Hmacros & Hsite & Hpdf).
  exists header, (Table (headers :: rows) (replicate 5 (555 / 5)%Z)), macros, site.
  split; [done|]. split; [done|]. split; [by eexists _, _|].
  split; [|split; [done|split; [by eexists _, _, _, _|done]]].
  intros other els Hels.
  destruct (calculate_macros other) as [[[[p' c'] f'] cal']|e] eqn:Hother.
  - destruct (create_meal_plan_pdf_unfold client_name total_calories other
                p' c' f' cal' Hother)
      as (header' & headers' & Hheader' & _ & Hpdf').
    assert (header' = header) as -> by congruence.
    rewrite Hpdf' in Hels.
    destruct (rows_of other) as [rows'|]; [|done]. rewrite bind_Ok in Hels.
    destruct (shape (VStr (macros_fstring p' c' f'))); [|done].
    rewrite bind_Ok in Hels.
    destruct (shape (VStr website)); [|done]. rewrite bind_Ok in Hels.
    by injection Hels as <-.
  - unfold create_meal_plan_pdf in Hels. by rewrite Hother in Hels.
Qed.

(** C9. The shaping transform returns for every input; a false input
    (the empty string, [None], zero) gives the empty string; when either
    library call raises, the result is the input as a string; and, the
    libraries leaving ASCII text as it is, shaping ASCII text returns it
    unchanged, so that shaping the result again changes nothing. *)
Theorem reshape_arabic_fallback_and_idempotence :
  (∀ text, ∃ s, shape text = Ok s)
  ∧ shape (VStr "") = Ok ""
  ∧ (∀ text, truthy text = false → shape text = Ok "")
  ∧ (∀ text e, truthy text = true →
       reshape (str text) = Raise e → shape text = Ok (str text))
  ∧ (∀ text t e, truthy text = true →
       reshape (str text) = Ok t → get_display t = Raise e →
       shape text = Ok (str text))
  ∧ ((∀ s t, is_ascii s = true → reshape s = Ok t → t = s) →
     (∀ s t, is_ascii s = true → get_display s = Ok t → t = s) →
     ∀ text once, is_ascii text = true →
       shape (VStr text) = Ok once →
       once = text ∧ shape (VStr once) = Ok once).
Proof.
  split; [apply reshape_arabic_ok|]. split; [reflexivity|].
  split; [|split; [|split]].
  - intros text Hfalse. unfold reshape_arabic. by rewrite Hfalse.
  - intros text e Htrue Hraise. unfold reshape_arabic. by rewrite Htrue, Hraise.
  - intros text t e Htrue Ht Hraise. unfold reshape_arabic.
    by rewrite Htrue, Ht, bind_Ok, Hraise.
  - intros Hreshape Hdisplay text once Hascii Honce.
    assert (once = text) as ->; [|done].
    unfold reshape_arabic in Honce.
    destruct (truthy (VStr text)) eqn:Htruthy; simpl in Honce.
    + destruct (reshape text) as [t|] eqn:Ht; simpl in Honce; [|congruence].
      apply (Hreshape _ _ Hascii) in Ht as ->.
      destruct (get_display text) as [u|] eqn:Hu; simpl in Honce; [|congruence].
      apply (Hdisplay _ _ Hascii) in Hu as ->. congruence.
    + simpl in Htruthy. apply negb_false_iff, String.eqb_eq in Htruthy.
      congruence.
Qed.

(** C10. The row count is a maximum over the meals: it exists and bounds
    every meal's item count when there is at least one meal, and the
    function then returns (macro fields being numbers); with zero meals
    [max] and with it the function raise [ValueError], although the
    aggregator returns on zero meals. *)
Theorem create_meal_plan_pdf_needs_a_meal
    (client_name : string) (total_calories : value) :
  (∀ meals_data, meals_data ≠ [] →
     ∃ n, Py.max (length ∘ meal_items <$> meals_data) = Ok n
          ∧ ∀ m, m ∈ meals_data → length (meal_items m) ≤ n)
  ∧ (∀ meals_data, meals_data ≠ [] → numeric_plan meals_data = true →
       ∃ els, pdf client_name total_calories meals_data = Ok els)
  ∧ Py.max (length ∘ meal_items <$> []) = Raise ValueError
  ∧ pdf client_name total_calories [] = Raise ValueError
  ∧ calculate_macros [] = Ok (0, 0, 0, 0)%Z.
Proof.
  split; [|split; [|split; [reflexivity|split; [|reflexivity]]]].
  - intros md Hmd.
    destruct (max_spec (length ∘ meal_items <$> md)) as (n & Hn & _ & Hmax).
    { by destruct md. }
    exists n. split; [done|]. intros m Hm.
    apply Hmax, list_elem_of_fmap. by exists m.
  - intros md Hmd Hnum.
    destruct (calculate_macros_calories_aux md Hnum) as ([[[p c] f] cal] & Hcalc & _).
    destruct (create_meal_plan_pdf_ok client_name total_calories md
                p c f cal Hmd Hcalc)
      as (header & headers & rows & macros & site & _ & _ & _ & _ & _ & Hpdf).
    eauto.
  - apply create_meal_plan_pdf_nil.
Qed.

End ReportProperties.

(** ** The theorems at concrete collections *)

Lemma report_rows_count_and_padding_witness :
  rice_plan ≠ []
  ∧ ∃ rows,
      report_rows plain_shaper mirror_shaper rice_plan = Ok rows
      ∧ (∀ m, m ∈ rice_plan → length (meal_items m) ≤ length rows)
      ∧ (∃ m, m ∈ rice_plan ∧ length (meal_items m) = length rows)
      ∧ ∀ r row, rows !! r = Some row →
          length row = 5
          ∧ ∀ j, j < 5 →
              match rice_plan !! (4 - j) with
              | Some m => length (meal_items m) ≤ r → row !! j = Some ""
              | None => row !! j = Some ""
              end.
Proof.
  split; [discriminate|].
  apply (report_rows_count_and_padding plain_shaper mirror_shaper rice_plan).
  discriminate.
Defined.

Lemma report_rows_reverse_order_witness :
  length rice_plan = 5
  ∧ ∃ rows,
      report_rows plain_shaper mirror_shaper rice_plan = Ok rows
      ∧ ∀ r row, rows !! r = Some row →
          (∀ j, j < 5 →
             ∃ m c, rice_plan !! (4 - j) = Some m
                    ∧ row !! j = Some c
                    ∧ match meal_items m !! r with
                      | Some it =>
                          reshape_arabic plain_shaper mirror_shaper (food_label it)
                          = Ok c
                      | None => c = ""
                      end)
          ∧ ∃ m c, rice_plan !! 0 = Some m
                   ∧ row !! 4 = Some c
                   ∧ table_cell plain_shaper mirror_shaper rice_plan r 0 = Ok c.
Proof.
  split; [reflexivity|].
  apply (report_rows_reverse_order plain_shaper mirror_shaper rice_plan).
  reflexivity.
Defined.

Lemma report_rows_cell_label_witness :
  rice_plan ≠ []
  ∧ ∃ rows,
      report_rows plain_shaper mirror_shaper rice_plan = Ok rows
      ∧ ∀ r row j c, rows !! r = Some row → row !! j = Some c →
          match rice_plan !! (4 - j) ≫= λ m, meal_items m !! r with
          | Some it =>
              (∀ a, it !! "amount" = Some (VInt a) → a ≠ 0%Z →
                 reshape_arabic plain_shaper mirror_shaper
                   (VStr (pretty a +:+ gram
                          +:+ str (get "food_text" (VStr "") it))) = Ok c)
              ∧ (it !! "amount" = None ∨ it !! "amount" = Some (VInt 0) →
                 reshape_arabic plain_shaper mirror_shaper
                   (get "food_text" (VStr "") it) = Ok c)
          | None => c = ""
          end.
Proof.
  split; [discriminate|].
  apply (report_rows_cell_label plain_shaper mirror_shaper rice_plan).
  discriminate.
Defined.

Lemma create_meal_plan_pdf_no_items_witness :
  fresh_plan ≠ []
  ∧ Forall (λ m, meal_items m = []) fresh_plan
  ∧ ∃ header headers macros site,
      length headers = 5
      ∧ report_rows plain_shaper mirror_shaper fresh_plan = Ok []
      ∧ create_meal_plan_pdf plain_shaper mirror_shaper "" (VInt 1700) fresh_plan
        = Ok [ Paragraph header HeaderStyle; Spacer 1 15;
               Table [headers] (replicate 5 (555 / 5)%Z); Spacer 1 15;
               Paragraph macros FooterStyle; Spacer 1 10;
               Paragraph site FooterStyle ].
Proof.
  assert (Hempty : Forall (λ m, meal_items m = []) fresh_plan)
    by (repeat constructor).
  split; [discriminate|]. split; [exact Hempty|].
  apply (create_meal_plan_pdf_no_items plain_shaper mirror_shaper
           "" (VInt 1700) fresh_plan); [discriminate|exact Hempty].
Defined.

(** C7 as stated fails on the collection of zero meals: no meal holds an
    item, and the function raises instead of returning a document. *)
Lemma create_meal_plan_pdf_no_meals_raises :
  Forall (λ m, meal_items m = []) ([] : list meal)
  ∧ create_meal_plan_pdf plain_shaper mirror_shaper "" (VInt 1700) []
    = Raise ValueError
  ∧ ¬ ∃ els,
        create_meal_plan_pdf plain_shaper mirror_shaper "" (VInt 1700) []
        = Ok els.
Proof.
  split; [constructor|].
  assert (Hraise : create_meal_plan_pdf plain_shaper mirror_shaper
                     "" (VInt 1700) [] = Raise ValueError)
    by (vm_compute; reflexivity).
  split; [exact Hraise|]. intros [els Hels]. congruence.
Qed.

Lemma header_declared_footer_computed_witness :
  rice_plan ≠ []
  ∧ calculate_macros rice_plan = Ok (4, 45, 1, 205)%Z
  ∧ ∃ header table macros site,
      create_meal_plan_pdf plain_shaper mirror_shaper "" (VInt 1700) rice_plan
      = Ok [ Paragraph header HeaderStyle; Spacer 1 15; table; Spacer 1 15;
             Paragraph macros FooterStyle; Spacer 1 10;
             Paragraph site FooterStyle ]
      ∧ reshape_arabic plain_shaper mirror_shaper
          (VStr (header_fstring (VInt 1700))) = Ok header
      ∧ (∃ pre post,
           header_fstring (VInt 1700) = pre +:+ str (VInt 1700) +:+ post)
      ∧ (∀ other els,
           create_meal_plan_pdf plain_shaper mirror_shaper "" (VInt 1700) other
           = Ok els →
           els !! 0 = Some (Paragraph header HeaderStyle))
      ∧ reshape_arabic plain_shaper mirror_shaper
          (VStr (macros_fstring 4 45 1)) = Ok macros
      ∧ (∃ s0 s1 s2 s3,
           macros_fstring 4 45 1
           = s0 +:+ pretty 4%Z +:+ s1 +:+ pretty 45%Z +:+ s2
             +:+ pretty 1%Z +:+ s3)
      ∧ reshape_arabic plain_shaper mirror_shaper (VStr website) = Ok site.
Proof.
  split; [discriminate|]. split; [vm_compute; reflexivity|].
  apply (header_declared_footer_computed plain_shaper mirror_shaper
           "" (VInt 1700) rice_plan 4 45 1 205);
    [discriminate|vm_compute; reflexivity].
Defined.

Lemma mirror_shaper_ascii (s t : string) :
  is_ascii s = true → mirror_shaper s = Ok t → t = s.
Proof. unfold mirror_shaper. intros ->. congruence. Qed.

Lemma plain_shaper_ascii (s t : string) :
  is_ascii s = true → plain_shaper s = Ok t → t = s.
Proof. unfold plain_shaper. congruence. Qed.

Lemma reshape_arabic_fallback_and_idempotence_witness :
  truthy (VStr "rice") = true
  ∧ failing_shaper (str (VStr "rice")) = Raise LibraryError
  ∧ reshape_arabic failing_shaper mirror_shaper (VStr "rice") = Ok "rice"
  ∧ is_ascii website = true
  ∧ reshape_arabic plain_shaper mirror_shaper (VStr website) = Ok website
  ∧ (website = website
     ∧ reshape_arabic plain_shaper mirror_shaper (VStr website) = Ok website).
Proof.
  destruct (reshape_arabic_fallback_and_idempotence failing_shaper mirror_shaper)
    as (_ & _ & _ & Hraise & _).
  destruct (reshape_arabic_fallback_and_idempotence plain_shaper mirror_shaper)
    as (_ & _ & _ & _ & _ & Hidem).
  split; [reflexivity|]. split; [reflexivity|].
  split; [apply (Hraise (VStr "rice") LibraryError); reflexivity|].
  split; [vm_compute; reflexivity|].
  split; [vm_compute; reflexivity|].
  apply (Hidem plain_shaper_ascii mirror_shaper_ascii website website);
    vm_compute; reflexivity.
Defined.

Lemma create_meal_plan_pdf_needs_a_meal_witness :
  rice_plan ≠ []
  ∧ numeric_plan rice_plan = true
  ∧ (∃ n, Py.max (length ∘ meal_items <$> rice_plan) = Ok n
          ∧ ∀ m, m ∈ rice_plan → length (meal_items m) ≤ n)
  ∧ ∃ els,
      create_meal_plan_pdf plain_shaper mirror_shaper "" (VInt 1700) rice_plan
      = Ok els.
Proof.
  destruct (create_meal_plan_pdf_needs_a_meal plain_shaper mirror_shaper
              "" (VInt 1700)) as (Hmax & Hpdf & _).
  split; [discriminate|]. split; [vm_compute; reflexivity|].
  split; [apply Hmax; discriminate|].
  apply Hpdf; [discriminate|vm_compute; reflexivity].
Defined.

(** ** More on the aggregator *)

Lemma sum_from_eq (vs : list value) (acc : Z) :
  sum_from acc vs
  = if forallb is_int vs then Ok (acc + sumZ (as_int <$> vs))%Z
    else Raise TypeError.
Proof.
  revert acc. induction vs as [|v vs IH]; intros acc.
  - simpl. f_equal. unfold sumZ; simpl. lia.
  - rewrite fmap_cons, sumZ_cons. cbn [forallb sum_from].
    destruct v as [|n|s]; try reflexivity.
    simpl add. rewrite bind_Ok, IH. simpl is_int. simpl as_int.
    destruct (forallb is_int vs); [|reflexivity]. f_equal. lia.
Qed.

Lemma sum_eq (vs : list value) :
  Py.sum vs
  = if forallb is_int vs then Ok (sumZ (as_int <$> vs)) else Raise TypeError.
Proof. unfold Py.sum. rewrite sum_from_eq. by destruct (forallb is_int vs). Qed.

Lemma andb3_interchange (a1 a2 a3 b1 b2 b3 : bool) :
  (a1 && a2 && a3) && (b1 && b2 && b3) = (a1 && b1) && (a2 && b2) && (a3 && b3).
Proof. by destruct a1, a2, a3, b1, b2, b3. Qed.

Lemma numeric_items_values (its : list item) :
  forallb numeric_item its
  = forallb is_int (get "protein" (VInt 0) <$> its)
    && forallb is_int (get "carbs" (VInt 0) <$> its)
    && forallb is_int (get "fat" (VInt 0) <$> its).
Proof.
  induction its as [|it its IH]; [reflexivity|].
  rewrite !fmap_cons. cbn [forallb]. rewrite IH. apply andb3_interchange.
Qed.

Lemma numeric_plan_values (md : list meal) :
  numeric_plan md
  = forallb is_int (macro_values "protein" md)
    && forallb is_int (macro_values "carbs" md)
    && forallb is_int (macro_values "fat" md).
Proof.
  induction md as [|m md IH]; [reflexivity|].
  rewrite !macro_values_cons, !forallb_app.
  unfold numeric_plan in *. cbn [forallb].
  rewrite IH, numeric_items_values. apply andb3_interchange.
Qed.

(** The aggregator in closed form: the totals, or [TypeError]. *)
Lemma calculate_macros_eq (md : list meal) :
  calculate_macros md
  = if numeric_plan md
    then Ok (plan_total "protein" md, plan_total "carbs" md,
             plan_total "fat" md,
             plan_total "protein" md * 4 + plan_total "carbs" md * 4
             + plan_total "fat" md * 9)%Z
    else Raise TypeError.
Proof.
  unfold calculate_macros. rewrite numeric_plan_values, !sum_eq.
  destruct (forallb is_int (macro_values "protein" md)); [|reflexivity].
  destruct (forallb is_int (macro_values "carbs" md)); [|reflexivity].
  destruct (forallb is_int (macro_values "fat" md)); [|reflexivity].
  by rewrite !bind_Ok, !macro_values_total.
Qed.









Lemma plan_total_items (key : string) (md : list meal) :
  plan_total key md = sumZ (field key <$> (md ≫= meal_items)).
Proof.
  induction md as [|m md IH]; [reflexivity|].
  rewrite bind_cons, fmap_app, sumZ_app, <- IH. reflexivity.
Qed.

Lemma numeric_plan_items (md : list meal) :
  numeric_plan md = forallb numeric_item (md ≫= meal_items).
Proof.
  induction md as [|m md IH]; [reflexivity|].
  rewrite bind_cons, forallb_app, <- IH. reflexivity.
Qed.



Lemma sumZ_nonneg (l : list Z) : Forall (λ x, 0 ≤ x)%Z l → (0 ≤ sumZ l)%Z.
Proof. induction 1; rewrite ?sumZ_cons; [done|lia]. Qed.

Lemma nonneg_value_field (key : string) (it : item) :
  nonneg_value (get key (VInt 0) it) = true →
  is_int (get key (VInt 0) it) = true ∧ (0 ≤ field key it)%Z.
Proof.
  unfold get, field. destruct (it !! key) as [[|n|s]|]; simpl; try done.
  intros Hn. split; [done|]. by apply Z.leb_le.
Qed.

Lemma nonneg_items_totals (its : list item) :
  forallb nonneg_item its = true →
  forallb numeric_item its = true
  ∧ Forall (λ x, 0 ≤ x)%Z (field "protein" <$> its)
  ∧ Forall (λ x, 0 ≤ x)%Z (field "carbs" <$> its)
  ∧ Forall (λ x, 0 ≤ x)%Z (field "fat" <$> its).
Proof.
  induction its as [|it its IH]; [by repeat split|].
  cbn [forallb]. intros [Hit Hits]%andb_prop.
  destruct (IH Hits) as (Hnum & Hp & Hc & Hf).
  unfold nonneg_item in Hit.
  apply andb_prop in Hit as [[Hprot Hcarb]%andb_prop Hfat].
  apply nonneg_value_field in Hprot as [Hip Hprot], Hcarb as [Hic Hcarb],
    Hfat as [Hif Hfat].
  rewrite Hnum, !fmap_cons. unfold numeric_item. rewrite Hip, Hic, Hif.
  split; [done|]. by repeat split; constructor.
Qed.

Lemma nonneg_plan_totals (md : list meal) :
  nonneg_plan md = true →
  numeric_plan md = true
  ∧ (0 ≤ plan_total "protein" md)%Z
  ∧ (0 ≤ plan_total "carbs" md)%Z
  ∧ (0 ≤ plan_total "fat" md)%Z.
Proof.
  unfold nonneg_plan. rewrite numeric_plan_items, !plan_total_items.
  induction md as [|m md IH]; [by repeat split|].
  cbn [forallb]. intros [Hm Hmd]%andb_prop.
  destruct (IH Hmd) as (Hnum & Hp & Hc & Hf).
  destruct (nonneg_items_totals _ Hm) as (Hnum' & Hp' & Hc' & Hf').
  rewrite bind_cons, forallb_app, !fmap_app, !sumZ_app, Hnum, Hnum'.
  apply sumZ_nonneg in Hp', Hc', Hf'. repeat split; lia.
Qed.

(** X4. When no macro field holds a negative number, the four numbers the
    aggregator returns are not negative, and the calories are zero only
    when the three totals are. *)
Theorem calculate_macros_nonneg (meals_data : list meal) :
  nonneg_plan meals_data = true →
  ∃ p c f cal,
    calculate_macros meals_data = Ok (p, c, f, cal)
    ∧ (0 ≤ p)%Z ∧ (0 ≤ c)%Z ∧ (0 ≤ f)%Z ∧ (0 ≤ cal)%Z
    ∧ (cal = 0%Z ↔ p = 0%Z ∧ c = 0%Z ∧ f = 0%Z).
Proof.
  intros Hnonneg.
  destruct (nonneg_plan_totals _ Hnonneg) as (Hnum & Hp & Hc & Hf).
  rewrite calculate_macros_eq, Hnum. eexists _, _, _, _.
  split; [reflexivity|]. repeat split; lia.
Qed.

Lemma calculate_macros_nonneg_witness :
  nonneg_plan sparse_plan = true
  ∧ ∃ p c f cal,
      calculate_macros sparse_plan = Ok (p, c, f, cal)
      ∧ (0 ≤ p)%Z ∧ (0 ≤ c)%Z ∧ (0 ≤ f)%Z ∧ (0 ≤ cal)%Z
      ∧ (cal = 0%Z ↔ p = 0%Z ∧ c = 0%Z ∧ f = 0%Z).
Proof.
  split; [vm_compute; reflexivity|].
  apply (calculate_macros_nonneg sparse_plan). vm_compute; reflexivity.
Defined.

(** ** More on the document *)

Section DocumentProperties.

Variable reshape : string → result string.
Variable get_display : string → result string.

Local Abbreviation shape := (reshape_arabic reshape get_display).
Local Abbreviation cell := (table_cell reshape get_display).
Local Abbreviation row_of := (table_row reshape get_display).
Local Abbreviation rows_of := (report_rows reshape get_display).
Local Abbreviation pdf := (create_meal_plan_pdf reshape get_display).

(** A returned document tells that the fields are numbers and that there
    is a meal. *)
Lemma create_meal_plan_pdf_raises_iff_aux
    (nm : string) (tc : value) (md : list meal) :
  (∃ els, pdf nm tc md = Ok els) → numeric_plan md = true ∧ md ≠ [].
Proof.
  intros [els Hels]. pose proof (calculate_macros_eq md) as Hcalc.
  destruct (numeric_plan md).
  - split; [done|]. intros ->. by rewrite create_meal_plan_pdf_nil in Hels.
  - unfold create_meal_plan_pdf in Hels. by rewrite Hcalc in Hels.
Qed.


Lemma table_row_ext (md md' : list meal) (r : nat) :
  (∀ k, k < 5 → cell md r k = cell md' r k) → row_of md r = row_of md' r.
Proof.
  intros Hcells. unfold table_row. cbn [for_each].
  by rewrite (Hcells 4), (Hcells 3), (Hcells 2), (Hcells 1), (Hcells 0) by lia.
Qed.

Lemma table_row_blank (md : list meal) (r : nat) :
  (∀ m, m ∈ md → length (meal_items m) ≤ r) →
  row_of md r = Ok [""; ""; ""; ""; ""].
Proof.
  intros Hshort.
  assert (Hcell : ∀ k, cell md r k = Ok "").
  { intros k. rewrite table_cell_lookup.
    destruct (md !! k) as [m|] eqn:Hm; [|done].
    rewrite lookup_ge_None_2; [done|].
    apply Hshort, list_elem_of_lookup. by exists k. }
  unfold table_row. cbn [for_each]. by rewrite !Hcell, !bind_Ok.
Qed.

(** The body in full: as many rows as the largest item count, each the
    row computed at its index, each of five cells. *)
Lemma report_rows_full (md : list meal) :
  md ≠ [] →
  ∃ rows,
    rows_of md = Ok rows
    ∧ (∀ m, m ∈ md → length (meal_items m) ≤ length rows)
    ∧ (∃ m, m ∈ md ∧ length (meal_items m) = length rows)
    ∧ (∀ r row, rows !! r = Some row → row_of md r = Ok row ∧ length row = 5).
Proof.
  intros Hmd.
  destruct (report_rows_rows reshape get_display md Hmd)
    as (n & rows & Hn & Hrows & Hlen & Hrow).
  destruct (max_spec (length ∘ meal_items <$> md)) as (n' & Hn' & Hin & Hmax).
  { by destruct md. }
  assert (n' = n) as -> by congruence.
  exists rows. rewrite Hlen. split; [done|]. split; [|split].
  - intros m Hm. apply Hmax, list_elem_of_fmap. by exists m.
  - apply list_elem_of_fmap in Hin as (m & -> & Hm). by exists m.
  - intros r row Hr. apply Hrow in Hr. split; [done|].
    destruct (table_row_cells reshape get_display md r) as (row' & Hrow' & Hfive & _).
    congruence.
Qed.

(** X6. Every document the function returns has the same seven flowables;
    its table is rectangular: a title row of five cells, body rows of five
    cells each, five column widths of 111. The client name never enters
    the document. *)
Theorem create_meal_plan_pdf_rectangular
    (client_name : string) (total_calories : value) (meals_data : list meal)
    (els : list flowable) :
  pdf client_name total_calories meals_data = Ok els →
  (∃ header titles rows macros site,
     els = [ Paragraph header HeaderStyle; Spacer 1 15;
             Table (titles :: rows) [111; 111; 111; 111; 111]%Z; Spacer 1 15;
             Paragraph macros FooterStyle; Spacer 1 10;
             Paragraph site FooterStyle ]
     ∧ rows_of meals_data = Ok rows
     ∧ Forall (λ row, length row = 5) (titles :: rows))
  ∧ ∀ other_name, pdf other_name total_calories meals_data = Ok els.
Proof.
  intros Hels. split; [|done].
  destruct (create_meal_plan_pdf_raises_iff_aux client_name total_calories meals_data)
    as (Hnum & Hmd); [by eexists|].
  pose proof (calculate_macros_eq meals_data) as Hcalc. rewrite Hnum in Hcalc.
  destruct (create_meal_plan_pdf_ok reshape get_display
              client_name total_calories meals_data _ _ _ _ Hmd Hcalc)
    as (header & titles & rows & macros & site & _ & Hfive & Hrows & _ & _ & Hpdf).
  exists header, titles, rows, macros, site.
  split; [rewrite Hpdf in Hels; by injection Hels as <-|].
  split; [done|]. constructor; [done|].
  destruct (report_rows_full meals_data Hmd) as (rows' & Hrows' & _ & _ & Hrow).
  assert (rows' = rows) as -> by congruence.
  apply Forall_lookup. intros r row Hr. by apply Hrow in Hr as [_ ?].
Qed.

(** X7. Meals stored after the fifth are never shown, yet they count for
    the number of rows: with five meals followed by others, every row up
    to the five meals' largest item count is the row of the five meals
    alone, and every further row consists of five empty cells. *)
Theorem report_rows_beyond_fifth (meals_data extra : list meal) :
  length meals_data = 5 →
  ∃ rows rows',
    rows_of meals_data = Ok rows
    ∧ rows_of (meals_data ++ extra) = Ok rows'
    ∧ length rows ≤ length rows'
    ∧ (∀ m, m ∈ extra → length (meal_items m) ≤ length rows')
    ∧ (length rows' = length rows
       ∨ ∃ m, m ∈ extra ∧ length (meal_items m) = length rows')
    ∧ ∀ r row', rows' !! r = Some row' →
        row' = default [""; ""; ""; ""; ""] (rows !! r).
Proof.
  intros Hfive.
  destruct (report_rows_full meals_data) as (rows & Hrows & Hbound & _ & Hrow).
  { by destruct meals_data. }
  destruct (report_rows_full (meals_data ++ extra))
    as (rows' & Hrows' & Hbound' & (m' & Hm' & Hmax') & Hrow').
  { by destruct meals_data. }
  exists rows, rows'. split; [done|]. split; [done|].
  assert (Hle : length rows ≤ length rows').
  { destruct (report_rows_full meals_data) as (rows0 & Hrows0 & _ & (m & Hm & Hmax) & _).
    { by destruct meals_data. }
    assert (rows0 = rows) as -> by congruence.
    rewrite <- Hmax. apply Hbound', elem_of_app. by left. }
  split; [done|]. split.
  { intros m Hm. apply Hbound', elem_of_app. by right. }
  split.
  { apply elem_of_app in Hm' as [Hm'|Hm'].
    - left. apply Hbound in Hm'. lia.
    - right. by exists m'. }
  intros r row' Hr'. apply Hrow' in Hr' as [Hr' _].
  rewrite (table_row_ext (meals_data ++ extra) meals_data) in Hr'.
  2:{ intros k Hk. rewrite !table_cell_lookup.
      by rewrite lookup_app_l by lia. }
  destruct (rows !! r) as [row|] eqn:Hr; simpl.
  - apply Hrow in Hr as [Hr _]. congruence.
  - apply lookup_ge_None in Hr.
    rewrite table_row_blank in Hr'; [congruence|].
    intros m Hm. apply Hbound in Hm. lia.
Qed.

End DocumentProperties.

(** ** The preview *)


Lemma preview_block_lookup (md : list meal) (i : nat) :
  preview_block md i
  = match md !! (4 - i) with
    | Some m =>
        match items m with
        | Some its =>
            Ok (4 - i, ("**" +:+ name m +:+ "**") :: omap preview_line its)
        | None => Raise KeyError
        end
    | None => Raise IndexError
    end.
Proof.
  unfold preview_block, index, subscript_items.
  destruct (md !! (4 - i)) as [m|]; [|done]. simpl.
  by destruct (items m).
Qed.

Lemma preview_ok (md : list meal) :
  (∀ c, c < 5 → ∃ m its, md !! c = Some m ∧ items m = Some its) →
  ∃ blocks, preview md = Ok blocks.
Proof.
  intros Hall.
  assert (Hblock : ∀ i, ∃ b, i < 5 → preview_block md i = Ok b).
  { intros i. destruct (decide (i < 5)) as [Hi|Hi]; [|exists (0, []); lia].
    destruct (Hall (4 - i)) as (m & its & Hm & Hits); [lia|].
    rewrite preview_block_lookup, Hm, Hits. by eexists. }
  destruct (Hblock 0) as [b0 H0], (Hblock 1) as [b1 H1],
    (Hblock 2) as [b2 H2], (Hblock 3) as [b3 H3], (Hblock 4) as [b4 H4].
  exists [b0; b1; b2; b3; b4]. unfold preview. cbn [range seq for_each].
  by rewrite H0, H1, H2, H3, H4 by lia.
Qed.


Lemma append_gram_nonempty (a b : string) : String.eqb (a +:+ gram +:+ b) "" = false.
Proof. by destruct a. Qed.

Section LabelProperties.

Variable reshape : string → result string.
Variable get_display : string → result string.

Local Abbreviation shape := (reshape_arabic reshape get_display).

(** X9. Preview and document agree on an item that has a description: the
    preview line is a bullet followed by the text of the document's cell
    before shaping. An item without description is left out of the
    preview; in the document its cell is blank when it has no amount, and
    otherwise holds a text that is not empty. *)
Theorem preview_line_label (it : item) :
  (truthy (get "food_text" (VStr "") it) = true →
     preview_line it = Some ("• " +:+ str (food_label it)))
  ∧ (truthy (get "food_text" (VStr "") it) = false →
       preview_line it = None
       ∧ (truthy (get "amount" VNone it) = false → shape (food_label it) = Ok "")
       ∧ (truthy (get "amount" VNone it) = true →
            truthy (food_label it) = true
            ∧ ∃ rest, str (food_label it)
                      = str (get "amount" VNone it) +:+ gram +:+ rest)).
Proof.
  unfold preview_line, food_label. split.
  - intros ->. by destruct (truthy (get "amount" VNone it)).
  - intros Hnone. rewrite Hnone. split; [done|]. split.
    + intros ->. unfold reshape_arabic. by rewrite Hnone.
    + intros ->. split; [|by eexists]. simpl.
      by rewrite append_gram_nonempty.
Qed.

End LabelProperties.

Lemma preview_line_label_witness :
  truthy (get "food_text" (VStr "") rice) = true
  ∧ preview_line rice = Some ("• " +:+ str (food_label rice))
  ∧ truthy (get "food_text" (VStr "") default_item) = false
  ∧ truthy (get "amount" VNone default_item) = false
  ∧ preview_line default_item = None
  ∧ reshape_arabic plain_shaper mirror_shaper (food_label default_item) = Ok "".
Proof.
  destruct (preview_line_label plain_shaper mirror_shaper rice) as [Hrice _].
  destruct (preview_line_label plain_shaper mirror_shaper default_item)
    as [_ Hdefault].
  split; [vm_compute; reflexivity|]. split; [apply Hrice; vm_compute; reflexivity|].
  split; [vm_compute; reflexivity|]. split; [vm_compute; reflexivity|].
  destruct Hdefault as (Hnone & Hblank & _); [vm_compute; reflexivity|].
  split; [exact Hnone|]. apply Hblank. vm_compute; reflexivity.
Defined.

(** ** The item counts *)

Lemma resize_eq (count : nat) (its : list item) :
  resize count its
  = take count its ++ replicate (count - length its) default_item.
Proof.
  unfold resize. repeat case_bool_decide.
  - by rewrite take_ge by lia.
  - replace (count - length its) with 0 by lia. by rewrite app_nil_r.
  - lia.
  - replace (count - length its) with 0 by lia.
    by rewrite take_ge, app_nil_r by lia.
Qed.

(** X10. After the item count of a meal is set to [count] the meal has
    exactly [count] items: the items it had, up to [count] of them, in
    their places, followed by default items; setting the count it already
    has changes nothing. *)
Theorem resize_spec (count : nat) (its : list item) :
  length (resize count its) = count
  ∧ (∀ j, j < count → j < length its → resize count its !! j = its !! j)
  ∧ (∀ j, length its ≤ j → j < count →
       resize count its !! j = Some default_item)
  ∧ resize (length its) its = its
  ∧ resize count (resize count its) = resize count its.
Proof.
  assert (Hlen : length (resize count its) = count).
  { rewrite resize_eq, length_app, length_take, length_replicate. lia. }
  split; [done|]. split; [|split; [|split]].
  - intros j Hj Hits. rewrite resize_eq, lookup_app_l
      by (rewrite length_take; lia).
    by apply lookup_take_lt.
  - intros j Hits Hj. rewrite resize_eq, lookup_app_r
      by (rewrite length_take; lia).
    apply lookup_replicate_2. rewrite length_take. lia.
  - unfold resize. by rewrite bool_decide_false by (intros H; by apply H).
  - unfold resize at 1. rewrite Hlen.
    by rewrite bool_decide_false by (intros H; by apply H).
Qed.

Lemma resize_spec_witness :
  length (resize 3 [rice; tea]) = 3
  ∧ resize 3 [rice; tea] !! 1 = [rice; tea] !! 1
  ∧ resize 3 [rice; tea] !! 2 = Some default_item
  ∧ resize 1 [rice; tea] = [rice].
Proof.
  destruct (resize_spec 3 [rice; tea]) as (Hlen & Hkeep & Hnew & _).
  split; [exact Hlen|].
  split; [apply Hkeep; simpl; lia|].
  split; [apply Hnew; simpl; lia|].
  vm_compute; reflexivity.
Defined.

Section CountProperties.

Variable count_input : nat → nat → nat.

Local Abbreviation loop := (count_loop count_input).
Local Abbreviation counted := (update_counts count_input).

(** The meal of column [i] after its count is read. *)
Local Abbreviation recount i m :=
  (Meal (name m)
     (Some (resize (count_input i (length (meal_items m))) (meal_items m)))).

Lemma count_loop_ok (cols : list nat) (md : list meal) :
  NoDup cols →
  (∀ i, i ∈ cols → ∃ m its, md !! i = Some m ∧ items m = Some its) →
  ∃ md', loop cols md = Ok md'
         ∧ length md' = length md
         ∧ ∀ i, md' !! i
                = if decide (i ∈ cols) then (λ m, recount i m) <$> md !! i
                  else md !! i.
Proof.
  intros Hnodup. revert md.
  induction cols as [|i cols IH]; intros md Hall.
  - exists md. split; [done|]. split; [done|]. intros i.
    by rewrite decide_False by apply not_elem_of_nil.
  - apply NoDup_cons in Hnodup as [Hi Hnodup].
    destruct (Hall i) as (m & its & Hm & Hits); [by left|].
    assert (Hlt : i < length md) by by eapply lookup_lt_Some.
    destruct (IH Hnodup (<[i := recount i m]> md)) as (md' & Hloop & Hlen & Hlook).
    { intros j Hj. destruct (Hall j) as (mj & itsj & Hmj & Hitsj); [by right|].
      exists mj, itsj. split; [|done].
      rewrite list_lookup_insert_ne; [done|]. by intros ->. }
    exists md'. split.
    { cbn [count_loop]. unfold index, subscript_items.
      rewrite Hm, bind_Ok, Hits, bind_Ok.
      unfold meal_items in Hloop. by rewrite Hits in Hloop. }
    split; [by rewrite Hlen, length_insert|].
    intros k. rewrite Hlook. destruct (decide (k = i)) as [->|Hne].
    + rewrite decide_False by done.
      rewrite decide_True by by left.
      by rewrite list_lookup_insert_eq, Hm by done.
    + rewrite list_lookup_insert_ne by done.
      destruct (decide (k ∈ cols)) as [Hk|Hk].
      * by rewrite decide_True by by right.
      * rewrite decide_False; [done|]. by intros [?|?]%elem_of_cons.
Qed.

Lemma count_loop_inv (cols : list nat) (md md' : list meal) :
  NoDup cols →
  loop cols md = Ok md' →
  ∀ i, i ∈ cols → ∃ m its, md !! i = Some m ∧ items m = Some its.
Proof.
  intros Hnodup. revert md.
  induction cols as [|i cols IH]; intros md Hloop j Hj.
  - by apply elem_of_nil in Hj.
  - apply NoDup_cons in Hnodup as [Hi Hnodup].
    cbn [count_loop] in Hloop. unfold index, subscript_items in Hloop.
    destruct (md !! i) as [m|] eqn:Hm; [|done]. rewrite bind_Ok in Hloop.
    destruct (items m) as [its|] eqn:Hits; [|done]. rewrite bind_Ok in Hloop.
    apply elem_of_cons in Hj as [->|Hj]; [by exists m, its|].
    destruct (IH Hnodup _ Hloop j Hj) as (mj & itsj & Hmj & Hitsj).
    exists mj, itsj. split; [|done].
    rewrite list_lookup_insert_ne in Hmj; [done|]. by intros ->.
Qed.

Lemma range_five_spec : NoDup (range 5) ∧ ∀ i, i ∈ range 5 ↔ i < 5.
Proof.
  split; [apply NoDup_seq|]. intros i. unfold range.
  rewrite elem_of_seq. lia.
Qed.

(** What the loop leaves when it returns. *)
Lemma update_counts_spec_aux (md md' : list meal) :
  counted md = Ok md' →
  length md' = length md
  ∧ (∀ i m, i < 5 → md !! i = Some m → md' !! i = Some (recount i m))
  ∧ (∀ i, 5 ≤ i → md' !! i = md !! i).
Proof.
  destruct range_five_spec as [Hnodup Hrange]. intros Hmd'.
  destruct (count_loop_ok (range 5) md Hnodup) as (md'' & Hmd'' & Hlen & Hlook).
  { by apply (count_loop_inv _ _ _ Hnodup Hmd'). }
  assert (md'' = md') as -> by (unfold update_counts in Hmd'; congruence).
  split; [done|]. split.
  - intros i m Hi Hm. rewrite Hlook, decide_True by by apply Hrange.
    by rewrite Hm.
  - intros i Hi. rewrite Hlook, decide_False; [done|].
    rewrite Hrange. lia.
Qed.



Lemma padded_items (its : list item) (n : nat) :
  forallb numeric_item (its ++ replicate n default_item)
  = forallb numeric_item its
  ∧ ∀ key, field key default_item = 0%Z →
      sumZ (field key <$> its ++ replicate n default_item)
      = sumZ (field key <$> its).
Proof.
  split.
  - rewrite forallb_app. induction n as [|n IH]; [by rewrite andb_true_r|].
    simpl. by rewrite andb_true_l.
  - intros key Hzero. rewrite fmap_app, sumZ_app, fmap_replicate, Hzero.
    assert (sumZ (replicate n 0%Z) = 0%Z) as ->; [|lia].
    induction n as [|n IH]; [done|]. cbn [replicate]. by rewrite sumZ_cons, IH.
Qed.

(** Meals that differ by default items at the end of their item lists
    have the same result. *)
Lemma padded_plan (md md' : list meal) :
  Forall2 (λ m m', ∃ n, meal_items m' = meal_items m ++ replicate n default_item)
    md md' →
  calculate_macros md' = calculate_macros md.
Proof.
  intros Hpad. rewrite !calculate_macros_eq.
  assert (numeric_plan md' = numeric_plan md
          ∧ ∀ key, field key default_item = 0%Z →
              plan_total key md' = plan_total key md) as [-> Htotal].
  { induction Hpad as [|m m' md md' [n Hn] _ [IHnum IHtotal]]; [done|].
    destruct (padded_items (meal_items m) n) as [Hnum Hsum]. split.
    - unfold numeric_plan in *. cbn [forallb]. by rewrite Hn, Hnum, IHnum.
    - intros key Hzero. unfold plan_total, meal_total in *.
      rewrite !fmap_cons, !sumZ_cons, Hn, (Hsum key Hzero).
      by rewrite (IHtotal key Hzero). }
  by rewrite !Htotal.
Qed.

(** X12. A run of the count loop in which no meal is given fewer items
    than it has leaves the result of the aggregator as it was: the items
    that are appended count for nothing. *)
Theorem update_counts_growth (meals_data md' : list meal) :
  counted meals_data = Ok md' →
  (∀ i m, i < 5 → meals_data !! i = Some m →
     length (meal_items m) ≤ count_input i (length (meal_items m))) →
  calculate_macros md' = calculate_macros meals_data.
Proof.
  intros Hmd' Hgrow.
  destruct (update_counts_spec_aux meals_data md' Hmd') as (Hlen & Hfirst & Hrest).
  apply padded_plan, Forall2_same_length_lookup. split; [done|].
  intros i m m' Hm Hm'. destruct (decide (i < 5)) as [Hi|Hi].
  - rewrite (Hfirst i m Hi Hm) in Hm'. injection Hm' as <-.
    exists (count_input i (length (meal_items m)) - length (meal_items m)).
    unfold meal_items at 1. cbn [items default]. rewrite resize_eq.
    by rewrite take_ge by by apply Hgrow.
  - rewrite Hrest in Hm' by lia. assert (m' = m) as -> by congruence.
    exists 0. by rewrite app_nil_r.
Qed.

End CountProperties.

(** ** The editing pass *)

Lemma meal_items_Meal (nm : string) (its : list item) :
  meal_items (Meal nm (Some its)) = its.
Proof. reflexivity. Qed.

Lemma meal_items_Some (m : meal) (its : list item) :
  items m = Some its → meal_items m = its.
Proof. unfold meal_items. by intros ->. Qed.

Section EditProperties.

Variable text_input : nat → nat → value → string.
Variable number_input : string → nat → nat → value → Z.

Local Abbreviation edit := (edit_item text_input number_input).
Local Abbreviation edited := (edit_meals text_input number_input).

(** The meal of tab [i] after the pass. *)
Local Abbreviation retyped i m :=
  (Meal (name m) (Some (imap (edit i) (meal_items m)))).

(** What the five assignments leave under each key; the [value=] a widget
    is given is read from the item as it was before the pass. *)
Lemma edit_item_lookup (i j : nat) (it : item) :
  edit i j it !! "food_text"
  = Some (VStr (text_input i j (get "food_text" (VStr "") it)))
  ∧ (∀ key, key ∈ ["amount"; "protein"; "carbs"; "fat"] →
       edit i j it !! key
       = Some (VInt (number_input key i j (get key (VInt 0) it))))
  ∧ (∀ key, key ∉ ["food_text"; "amount"; "protein"; "carbs"; "fat"] →
       edit i j it !! key = it !! key).
Proof.
  unfold edit_item, get. cbv zeta. split; [|split].
  - by simplify_map_eq.
  - intros key Hkey. repeat (apply elem_of_cons in Hkey as [->|Hkey]);
      [by simplify_map_eq..|by apply elem_of_nil in Hkey].
  - intros key Hkey.
    rewrite !lookup_insert_ne; [done|..]; intros <-; apply Hkey; set_solver.
Qed.

Lemma edit_item_complete (i j : nat) (it : item) :
  complete_item (edit i j it) = true.
Proof.
  destruct (edit_item_lookup i j it) as (Htext & Hnum & _).
  unfold complete_item, holds_text, holds_int.
  rewrite Htext, !Hnum by set_solver. done.
Qed.

Lemma edit_meal_eq (i : nat) (m : meal) :
  edit_meal text_input number_input i m
  = match items m with
    | Some _ => Ok (retyped i m)
    | None => Raise KeyError
    end.
Proof.
  unfold edit_meal, subscript_items, meal_items.
  destruct m as [nm [[|it its]|]]; reflexivity.
Qed.

Lemma edit_loop_eq (i0 : nat) (md : list meal) :
  Forall (λ m, is_Some (items m)) md →
  edit_loop text_input number_input i0 md
  = Ok (imap (λ k m, retyped (i0 + k) m) md).
Proof.
  intros Hall. revert i0.
  induction Hall as [|m md [its Hits] _ IH]; intros i0; [done|].
  cbn [edit_loop]. rewrite edit_meal_eq, Hits, bind_Ok, IH, bind_Ok.
  rewrite imap_cons, Nat.add_0_r. do 2 f_equal.
  apply imap_ext. intros k m' _. simpl. by rewrite Nat.add_succ_r.
Qed.




Lemma forallb_imap {A B} (f : B → bool) (g : nat → A → B) (l : list A) :
  (∀ i x, f (g i x) = true) → forallb f (imap g l) = true.
Proof.
  revert g. induction l as [|x l IH]; intros g Hg; [done|].
  rewrite imap_cons. cbn [forallb]. rewrite Hg.
  apply IH. intros i y. apply Hg.
Qed.

Lemma complete_item_numeric (it : item) :
  complete_item it = true → numeric_item it = true.
Proof.
  unfold complete_item, numeric_item, holds_int, get.
  intros [[[[_ _]%andb_prop Hp]%andb_prop Hc]%andb_prop Hf]%andb_prop.
  destruct (it !! "protein") as [[]|], (it !! "carbs") as [[]|],
    (it !! "fat") as [[]|]; done.
Qed.




End EditProperties.

(** ** A run of [main] *)

Lemma stored_spec (md : list meal) :
  stored md = true
  ↔ length md = 5
    ∧ ∀ i m, md !! i = Some m →
        ∃ its, items m = Some its ∧ length its ≤ 10
               ∧ forallb complete_item its = true.
Proof.
  unfold stored. rewrite andb_true_iff, Nat.eqb_eq, forallb_forall.
  split; intros [Hlen Hall]; (split; [done|]).
  - intros i m Hm.
    assert (Hin : In m md) by (apply list_elem_of_In, list_elem_of_lookup; eauto).
    apply Hall in Hin. destruct (items m) as [its|]; [|done].
    apply andb_prop in Hin as [Hten Hcomplete]. exists its.
    split; [done|]. split; [by apply Nat.leb_le|done].
  - intros m Hin. apply list_elem_of_In, list_elem_of_lookup in Hin as [i Hm].
    destruct (Hall i m Hm) as (its & -> & Hten & ->).
    by rewrite (proj2 (Nat.leb_le _ _) Hten).
Qed.

Lemma complete_item_lookup (it : item) :
  complete_item it = true →
  ∃ s a p c f,
    it !! "food_text" = Some (VStr s) ∧ it !! "amount" = Some (VInt a)
    ∧ it !! "protein" = Some (VInt p) ∧ it !! "carbs" = Some (VInt c)
    ∧ it !! "fat" = Some (VInt f).
Proof.
  unfold complete_item, holds_text, holds_int.
  intros [[[[Ht Ha]%andb_prop Hp]%andb_prop Hc]%andb_prop Hf]%andb_prop.
  destruct (it !! "food_text") as [[| |s]|]; try done.
  destruct (it !! "amount") as [[|a|]|]; try done.
  destruct (it !! "protein") as [[|p|]|]; try done.
  destruct (it !! "carbs") as [[|c|]|]; try done.
  destruct (it !! "fat") as [[|f|]|]; try done.
  by exists s, a, p, c, f.
Qed.

Lemma imap_id {A} (g : nat → A → A) (l : list A) :
  (∀ i x, l !! i = Some x → g i x = x) → imap g l = l.
Proof.
  intros Hg. apply list_eq. intros i. rewrite list_lookup_imap.
  destruct (l !! i) as [x|] eqn:Hx; [|done]. simpl. by rewrite (Hg i x Hx).
Qed.

Section MainProperties.

Variable count_input : nat → nat → nat.
Variable text_input : nat → nat → value → string.
Variable number_input : string → nat → nat → value → Z.
Variable reshape : string → result string.
Variable get_display : string → result string.

Local Abbreviation counted := (update_counts count_input).
Local Abbreviation edit := (edit_item text_input number_input).
Local Abbreviation edited := (edit_meals text_input number_input).
Local Abbreviation pdf := (create_meal_plan_pdf reshape get_display).
Local Abbreviation run :=
  (main count_input text_input number_input reshape get_display).

(** The store after the two loops of a run, from a store of the form a
    run leaves. *)
Lemma loops_on_stored (md : list meal) :
  stored md = true →
  ∃ md1 md2,
    counted md = Ok md1 ∧ edited md1 = Ok md2
    ∧ length md1 = 5
    ∧ (∀ i m, md !! i = Some m →
         md1 !! i
         = Some (Meal (name m)
                   (Some (resize (count_input i (length (meal_items m)))
                            (meal_items m)))))
    ∧ md2 = imap (λ i m, Meal (name m) (Some (imap (edit i) (meal_items m)))) md1.
Proof.
  intros [Hfive Hall]%stored_spec.
  destruct (range_five_spec) as [Hnodup Hrange].
  destruct (count_loop_ok count_input (range 5) md Hnodup)
    as (md1 & Hmd1 & Hlen & Hlook).
  { intros i Hi. apply Hrange in Hi.
    destruct (lookup_lt_is_Some_2 md i) as [m Hm]; [lia|].
    destruct (Hall i m Hm) as (its & Hits & _). by exists m, its. }
  assert (Hfirst : ∀ i m, md !! i = Some m →
            md1 !! i
            = Some (Meal (name m)
                      (Some (resize (count_input i (length (meal_items m)))
                               (meal_items m))))).
  { intros i m Hm. rewrite Hlook, decide_True, Hm; [done|].
    apply Hrange. apply lookup_lt_Some in Hm. lia. }
  assert (Hitems : Forall (λ m, is_Some (items m)) md1).
  { apply Forall_lookup. intros i m1 Hm1.
    destruct (lookup_lt_is_Some_2 md i) as [m Hm].
    { apply lookup_lt_Some in Hm1. lia. }
    rewrite (Hfirst i m Hm) in Hm1. injection Hm1 as <-. by eexists. }
  eexists md1, _. split; [done|]. split.
  { unfold edit_meals. by apply (edit_loop_eq _ _ 0). }
  split; [lia|]. split; [done|]. done.
Qed.


Lemma length_resize (count : nat) (its : list item) :
  length (resize count its) = count.
Proof. rewrite resize_eq, length_app, length_take, length_replicate. lia. Qed.

(** A store of five meals whose items are complete passes the rest of the
    run: the metrics, the preview and the document. *)
Lemma page_on_complete (nm : string) (tc : value) (md : list meal) :
  length md = 5 →
  (∀ i m, md !! i = Some m →
     ∃ its, items m = Some its ∧ forallb complete_item its = true) →
  ∃ metrics shown header titles rows macros site,
    calculate_macros md = Ok metrics
    ∧ preview md = Ok shown
    ∧ (∃ m, m ∈ md ∧ length (meal_items m) = length rows)
    ∧ pdf nm tc md
      = Ok [ Paragraph header HeaderStyle; Spacer 1 15;
             Table (titles :: rows) (replicate 5 (555 / 5)%Z); Spacer 1 15;
             Paragraph macros FooterStyle; Spacer 1 10;
             Paragraph site FooterStyle ].
Proof.
  intros Hfive Hall.
  assert (Hmd : md ≠ []) by by destruct md.
  assert (Hnum : numeric_plan md = true).
  { apply forallb_forall. intros m Hm. apply forallb_forall. intros it Hit.
    apply complete_item_numeric.
    apply list_elem_of_In, list_elem_of_lookup in Hm as [i Hm].
    destruct (Hall i m Hm) as (its & Hits & Hcomplete).
    unfold meal_items in Hit. rewrite Hits in Hit.
    rewrite forallb_forall in Hcomplete. by apply Hcomplete. }
  pose proof (calculate_macros_eq md) as Hcalc. rewrite Hnum in Hcalc.
  destruct (preview_ok md) as [shown Hshown].
  { intros c Hc. destruct (lookup_lt_is_Some_2 md c) as [m Hm]; [lia|].
    destruct (Hall c m Hm) as (its & Hits & _). by exists m, its. }
  destruct (create_meal_plan_pdf_ok reshape get_display nm tc md _ _ _ _ Hmd Hcalc)
    as (header & titles & rows & macros & site & _ & _ & Hrows & _ & _ & Hpdf).
  destruct (report_rows_full reshape get_display md Hmd)
    as (rows' & Hrows' & _ & Hmax & _).
  assert (rows' = rows) as -> by congruence.
  by eexists _, shown, header, titles, rows, macros, site.
Qed.

(** A run from a store of the form a run leaves, in full. *)
Lemma main_on_stored (nm : string) (tc : Z) (button : bool)
    (session_state : option (list meal)) :
  stored (session_meals session_state) = true →
  ∃ md1 metrics shown header titles rows macros site,
    let md2 :=
      imap (λ i m, Meal (name m) (Some (imap (edit i) (meal_items m)))) md1 in
    let doc :=
      [ Paragraph header HeaderStyle; Spacer 1 15;
        Table (titles :: rows) (replicate 5 (555 / 5)%Z); Spacer 1 15;
        Paragraph macros FooterStyle; Spacer 1 10;
        Paragraph site FooterStyle ] in
    length md1 = 5
    ∧ (∀ i m, session_meals session_state !! i = Some m →
         md1 !! i
         = Some (Meal (name m)
                   (Some (resize (count_input i (length (meal_items m)))
                            (meal_items m)))))
    ∧ calculate_macros md2 = Ok metrics
    ∧ preview md2 = Ok shown
    ∧ (∃ m, m ∈ md2 ∧ length (meal_items m) = length rows)
    ∧ pdf nm (VInt tc) md2 = Ok doc
    ∧ run nm tc button session_state
      = Ok (Page md2 metrics shown (if button then Some doc else None)).
Proof.
  intros Hstored.
  destruct (loops_on_stored _ Hstored)
    as (md1 & md2 & Hmd1 & Hmd2 & Hfive & Hfirst & ->).
  destruct (page_on_complete nm (VInt tc)
              (imap (λ i m, Meal (name m) (Some (imap (edit i) (meal_items m)))) md1))
    as (metrics & shown & header & titles & rows & macros & site
        & Hcalc & Hshown & Hmax & Hpdf).
  { by rewrite length_imap. }
  { intros i m2 Hm2. apply list_lookup_imap_Some in Hm2 as (m1 & _ & ->).
    eexists. split; [done|]. apply forallb_imap. intros.
    apply edit_item_complete. }
  exists md1, metrics, shown, header, titles, rows, macros, site. cbv zeta.
  repeat (split; [done|]).
  unfold main. rewrite Hmd1, bind_Ok, Hmd2, bind_Ok, Hcalc, bind_Ok, Hshown, bind_Ok.
  destruct button; [|done]. by rewrite Hpdf.
Qed.

(** X15. From a fresh session or from the store a run has left, and with
    count inputs that return at most ten when they are given at most ten
    ([max_value=10]), a run of [main] does not raise.
    It leaves a store of the same form, in which each meal keeps its name
    and has as many items as its count input returned; the metrics are
    the aggregator's result on that store; the document is produced when
    the button is pressed, from that store, with at most ten body rows. *)
Theorem main_keeps_store (client_name : string) (total_calories : Z)
    (button : bool) (session_state : option (list meal)) :
  (∀ i n, n ≤ 10 → count_input i n ≤ 10) →
  (∀ md, session_state = Some md → stored md = true) →
  ∃ pg,
    run client_name total_calories button session_state = Ok pg
    ∧ stored (page_meals pg) = true
    ∧ (∀ i m, session_meals session_state !! i = Some m →
         ∃ m', page_meals pg !! i = Some m'
               ∧ name m' = name m
               ∧ length (meal_items m')
                 = count_input i (length (meal_items m)))
    ∧ calculate_macros (page_meals pg) = Ok (page_metrics pg)
    ∧ preview (page_meals pg) = Ok (page_preview pg)
    ∧ if button
      then ∃ header titles rows macros site,
             page_pdf pg
             = Some [ Paragraph header HeaderStyle; Spacer 1 15;
                      Table (titles :: rows) [111; 111; 111; 111; 111]%Z;
                      Spacer 1 15;
                      Paragraph macros FooterStyle; Spacer 1 10;
                      Paragraph site FooterStyle ]
             ∧ pdf client_name (VInt total_calories) (page_meals pg)
               = Ok (default [] (page_pdf pg))
             ∧ length rows ≤ 10
      else page_pdf pg = None.
Proof.
  intros Hten Hsession.
  assert (Hstored : stored (session_meals session_state) = true).
  { destruct session_state as [md|]; [by apply Hsession|].
    vm_compute; reflexivity. }
  destruct (main_on_stored client_name total_calories button _ Hstored)
    as (md1 & metrics & shown & header & titles & rows & macros & site
        & Hfive & Hfirst & Hcalc & Hshown & (mx & Hmx & Hmax) & Hpdf & Hrun).
  cbv zeta in *.
  apply stored_spec in Hstored as [Hfive0 Hall0].
  assert (Hmeal : ∀ i m2,
            imap (λ i m, Meal (name m) (Some (imap (edit i) (meal_items m)))) md1
              !! i = Some m2 →
            ∃ m, session_meals session_state !! i = Some m
                 ∧ name m2 = name m
                 ∧ items m2
                   = Some (imap (edit i)
                             (resize (count_input i (length (meal_items m)))
                                (meal_items m)))
                 ∧ count_input i (length (meal_items m)) ≤ 10).
  { intros i m2 Hm2. apply list_lookup_imap_Some in Hm2 as (m1 & Hm1 & ->).
    destruct (lookup_lt_is_Some_2 (session_meals session_state) i) as [m Hm].
    { apply lookup_lt_Some in Hm1. lia. }
    rewrite (Hfirst i m Hm) in Hm1. injection Hm1 as <-.
    exists m. split; [done|]. split; [done|]. split; [done|].
    destruct (Hall0 i m Hm) as (its & Hits & Hlen & _).
    apply Hten. by rewrite (meal_items_Some _ _ Hits). }
  eexists. split; [exact Hrun|]. cbn [page_meals page_metrics page_preview page_pdf].
  split; [|split; [|split; [done|split; [done|]]]].
  - apply stored_spec. split; [by rewrite length_imap|].
    intros i m2 Hm2. destruct (Hmeal i m2 Hm2) as (m & _ & _ & Hits & Hle).
    eexists. split; [exact Hits|]. rewrite length_imap, length_resize.
    split; [exact Hle|]. apply forallb_imap. intros. apply edit_item_complete.
  - intros i m Hm.
    destruct (lookup_lt_is_Some_2
                (imap (λ i m, Meal (name m) (Some (imap (edit i) (meal_items m)))) md1) i)
      as [m2 Hm2].
    { rewrite length_imap. apply lookup_lt_Some in Hm. lia. }
    destruct (Hmeal i m2 Hm2) as (m' & Hm' & Hname & Hits & _).
    assert (m' = m) as -> by congruence.
    exists m2. split; [done|]. split; [done|].
    by rewrite (meal_items_Some _ _ Hits), length_imap, length_resize.
  - destruct button; [|done].
    exists header, titles, rows, macros, site. split; [done|].
    split; [done|]. rewrite <- Hmax.
    apply list_elem_of_lookup in Hmx as [i Hmx].
    destruct (Hmeal i mx Hmx) as (m & _ & _ & Hits & Hle).
    by rewrite (meal_items_Some _ _ Hits), length_imap, length_resize.
Qed.

Lemma edit_item_keep (i j : nat) (it : item) :
  (∀ i j s, text_input i j (VStr s) = s) →
  (∀ key i j n, number_input key i j (VInt n) = n) →
  complete_item it = true →
  edit i j it = it.
Proof.
  intros Htext Hnumber
    (s & a & p & c & f & Hs & Ha & Hp & Hc & Hf)%complete_item_lookup.
  unfold edit_item, get. cbv zeta.
  rewrite Hs. cbn [default from_option id]. rewrite Htext, (insert_id it) by done.
  rewrite Ha. cbn [default from_option id]. rewrite Hnumber, (insert_id it) by done.
  rewrite Hp. cbn [default from_option id]. rewrite Hnumber, (insert_id it) by done.
  rewrite Hc. cbn [default from_option id]. rewrite Hnumber, (insert_id it) by done.
  rewrite Hf. cbn [default from_option id]. by rewrite Hnumber, (insert_id it) by done.
Qed.

(** X16. A run in which every widget returns the value it is given (the
    user changed nothing) leaves the store exactly as it was. *)
Theorem main_unchanged (client_name : string) (total_calories : Z)
    (button : bool) (meals_data : list meal) :
  (∀ i n, count_input i n = n) →
  (∀ i j s, text_input i j (VStr s) = s) →
  (∀ key i j n, number_input key i j (VInt n) = n) →
  stored meals_data = true →
  ∃ pg,
    run client_name total_calories button (Some meals_data) = Ok pg
    ∧ page_meals pg = meals_data.
Proof.
  intros Hcount Htext Hnumber Hstored.
  destruct (main_on_stored client_name total_calories button
              (Some meals_data) Hstored)
    as (md1 & metrics & shown & header & titles & rows & macros & site
        & Hfive & Hfirst & _ & _ & _ & _ & Hrun).
  cbv zeta in *. cbn [session_meals default] in Hfirst.
  apply stored_spec in Hstored as [Hfive0 Hall0].
  eexists. split; [exact Hrun|]. cbn [page_meals].
  assert (md1 = meals_data) as ->.
  { apply list_eq. intros i.
    destruct (meals_data !! i) as [m|] eqn:Hm.
    - rewrite (Hfirst i m Hm), Hcount, resize_eq, take_ge, Nat.sub_diag,
        app_nil_r by done.
      destruct (Hall0 i m Hm) as (its & Hits & _).
      destruct m as [nm o]. simpl in *. subst o. done.
    - apply lookup_ge_None. apply lookup_ge_None in Hm. lia. }
  apply imap_id. intros i m Hm.
  destruct (Hall0 i m Hm) as (its & Hits & _ & Hcomplete).
  destruct m as [nm o]. simpl in *. subst o. f_equal. f_equal.
  rewrite meal_items_Meal. apply imap_id. intros j it Hit.
  apply edit_item_keep; [done..|].
  rewrite forallb_forall in Hcomplete.
  apply Hcomplete, list_elem_of_In, list_elem_of_lookup. eauto.
Qed.


(** X17. Whenever a run returns with a document, the summary paragraph of
    the document is the shaping of the text built from the same three
    totals the page shows as metrics, computed on the store the run
    leaves, while its header is built from the calorie input, not from
    the computed calories. *)
Theorem main_document_matches_metrics (client_name : string)
    (total_calories : Z) (button : bool) (session_state : option (list meal))
    (pg : page) (els : list flowable) :
  run client_name total_calories button session_state = Ok pg →
  page_pdf pg = Some els →
  ∃ p c f cal header macros,
    page_metrics pg = (p, c, f, cal)
    ∧ calculate_macros (page_meals pg) = Ok (p, c, f, cal)
    ∧ els !! 0 = Some (Paragraph header HeaderStyle)
    ∧ reshape_arabic reshape get_display
        (VStr (header_fstring (VInt total_calories))) = Ok header
    ∧ els !! 4 = Some (Paragraph macros FooterStyle)
    ∧ reshape_arabic reshape get_display (VStr (macros_fstring p c f))
      = Ok macros.
Proof.
  unfold main. intros Hrun Hels.
  destruct (counted (session_meals session_state)) as [md1|]; [|done].
  rewrite bind_Ok in Hrun.
  destruct (edited md1) as [md2|]; [|done]. rewrite bind_Ok in Hrun.
  destruct (calculate_macros md2) as [[[[p c] f] cal]|] eqn:Hcalc; [|done].
  rewrite bind_Ok in Hrun.
  destruct (preview md2) as [shown|]; [|done]. rewrite bind_Ok in Hrun.
  destruct button.
  - destruct (pdf client_name (VInt total_calories) md2) as [doc|] eqn:Hdoc;
      [|done].
    rewrite !bind_Ok in Hrun. injection Hrun as <-.
    cbn [page_pdf page_metrics page_meals] in *. injection Hels as ->.
    destruct (create_meal_plan_pdf_raises_iff_aux reshape get_display
                client_name (VInt total_calories) md2) as [_ Hmd2];
      [by eexists|].
    destruct (create_meal_plan_pdf_ok reshape get_display client_name
                (VInt total_calories) md2 p c f cal Hmd2 Hcalc)
      as (header & titles & rows & macros & site
          & Hheader & _ & _ & Hmacros & _ & Hpdf).
    rewrite Hpdf in Hdoc. injection Hdoc as <-.
    by exists p, c, f, cal, header, macros.
  - rewrite !bind_Ok in Hrun. injection Hrun as <-. done.
Qed.

End MainProperties.

(** ** The further theorems at concrete collections *)


Lemma create_meal_plan_pdf_rectangular_witness :
  ∃ els,
    create_meal_plan_pdf failing_shaper failing_shaper "" (VInt 1700) rice_plan
    = Ok els
    ∧ (∃ header titles rows macros site,
         els = [ Paragraph header HeaderStyle; Spacer 1 15;
                 Table (titles :: rows) [111; 111; 111; 111; 111]%Z;
                 Spacer 1 15;
                 Paragraph macros FooterStyle; Spacer 1 10;
                 Paragraph site FooterStyle ]
         ∧ report_rows failing_shaper failing_shaper rice_plan = Ok rows
         ∧ Forall (λ row, length row = 5) (titles :: rows))
    ∧ ∀ other_name,
        create_meal_plan_pdf failing_shaper failing_shaper
          other_name (VInt 1700) rice_plan = Ok els.
Proof.
  eexists. split; [vm_compute; reflexivity|].
  apply (create_meal_plan_pdf_rectangular failing_shaper failing_shaper
           "" (VInt 1700) rice_plan).
  vm_compute; reflexivity.
Defined.

Lemma report_rows_beyond_fifth_witness :
  length rice_plan = 5
  ∧ ∃ rows rows',
      report_rows plain_shaper mirror_shaper rice_plan = Ok rows
      ∧ report_rows plain_shaper mirror_shaper
          (rice_plan ++ [ Meal "m6" (Some [tea; tea]) ]) = Ok rows'
      ∧ length rows ≤ length rows'
      ∧ (∀ m, m ∈ [ Meal "m6" (Some [tea; tea]) ] →
           length (meal_items m) ≤ length rows')
      ∧ (length rows' = length rows
         ∨ ∃ m, m ∈ [ Meal "m6" (Some [tea; tea]) ]
                ∧ length (meal_items m) = length rows')
      ∧ ∀ r row', rows' !! r = Some row' →
          row' = default [""; ""; ""; ""; ""] (rows !! r).
Proof.
  split; [reflexivity|].
  apply (report_rows_beyond_fifth plain_shaper mirror_shaper rice_plan
           [ Meal "m6" (Some [tea; tea]) ]).
  reflexivity.
Defined.



Lemma update_counts_growth_witness :
  update_counts two_in_first rice_plan
  = Ok (<[0 := Meal "m1" (Some [rice; default_item])]> rice_plan)
  ∧ calculate_macros (<[0 := Meal "m1" (Some [rice; default_item])]> rice_plan)
    = calculate_macros rice_plan.
Proof.
  assert (Hrun : update_counts two_in_first rice_plan
                 = Ok (<[0 := Meal "m1" (Some [rice; default_item])]> rice_plan))
    by (vm_compute; reflexivity).
  split; [exact Hrun|].
  apply (update_counts_growth two_in_first rice_plan _ Hrun).
  intros i m Hi Hm.
  destruct i as [|[|[|[|[|i]]]]]; [injection Hm as <-; simpl; lia..|lia].
Defined.




Lemma two_in_first_bound (i n : nat) : n ≤ 10 → two_in_first i n ≤ 10.
Proof. destruct i; simpl; lia. Qed.

Lemma main_keeps_store_witness :
  ∃ pg,
    main two_in_first type_rice rice_numbers failing_shaper failing_shaper
      "" 1700 true None = Ok pg
    ∧ stored (page_meals pg) = true
    ∧ calculate_macros (page_meals pg) = Ok (page_metrics pg)
    ∧ preview (page_meals pg) = Ok (page_preview pg).
Proof.
  destruct (main_keeps_store two_in_first type_rice rice_numbers
              failing_shaper failing_shaper "" 1700 true None)
    as (pg & Hrun & Hstored & _ & Hcalc & Hshown & _);
    [apply two_in_first_bound|discriminate|].
  by exists pg.
Defined.

Lemma main_unchanged_witness :
  stored rice_plan = true
  ∧ ∃ pg,
      main keep_count keep_text keep_number plain_shaper mirror_shaper
        "" 1700 false (Some rice_plan) = Ok pg
      ∧ page_meals pg = rice_plan.
Proof.
  split; [vm_compute; reflexivity|].
  apply (main_unchanged keep_count keep_text keep_number
           plain_shaper mirror_shaper "" 1700 false rice_plan);
    [reflexivity..|vm_compute; reflexivity].
Defined.

Lemma main_document_matches_metrics_witness :
  ∃ pg els,
    main two_in_first type_rice rice_numbers failing_shaper failing_shaper
      "" 1700 true None = Ok pg
    ∧ page_pdf pg = Some els
    ∧ ∃ p c f cal header macros,
        page_metrics pg = (p, c, f, cal)
        ∧ calculate_macros (page_meals pg) = Ok (p, c, f, cal)
        ∧ els !! 0 = Some (Paragraph header HeaderStyle)
        ∧ reshape_arabic failing_shaper failing_shaper
            (VStr (header_fstring (VInt 1700))) = Ok header
        ∧ els !! 4 = Some (Paragraph macros FooterStyle)
        ∧ reshape_arabic failing_shaper failing_shaper
            (VStr (macros_fstring p c f)) = Ok macros.
Proof.
  eexists _, _. split; [vm_compute; reflexivity|]. split; [reflexivity|].
  eapply (main_document_matches_metrics two_in_first type_rice rice_numbers
            failing_shaper failing_shaper "" 1700 true None);
    [vm_compute; reflexivity|reflexivity].
Defined.
